(** * HTML-Calculator: the expression builder and evaluator of [script.js]

    A shallow embedding of the [Calculator] class of [src/script.js]
    (version 4.0.0): the input state machine ([handleInput] and its
    handlers), the structural validator ([isValidExpression],
    [validateParentheses]) and [safeEvaluate], together with the part of
    the JavaScript host they call: IEEE 754 binary64 numbers,
    [Number.prototype.toString], [isFinite], [Math.abs] and the
    [Function] constructor applied to a validated arithmetic text.

    JavaScript strings are modelled as [string] whose characters are the
    code units U+0000..U+00FF; this covers the whole token alphabet of the
    calculator, including the multiplication sign U+00D7 and the division
    sign U+00F7.

    The file goes on to the keyboard handler ([handleKeyboard]), the text
    of the display ([updateDisplay], [isNumericResult], [formatNumber],
    with [parseFloat], [toFixed] and [toExponential] of the host) and the
    theme preference ([toggleTheme], [loadThemePreference]). *)

From Stdlib Require Import ZArith List Bool Lia.
From Stdlib Require Import Strings.Ascii Strings.String.
From Stdlib Require Import Floats.SpecFloat.
From Stdlib Require Import Numbers.DecimalString.
Import ListNotations.

Open Scope string_scope.
Open Scope Z_scope.

(** ** JavaScript numbers *)

Module JsNumber.

(** A JavaScript Number is an IEEE 754 binary64 value. *)
Definition number := spec_float.

Definition prec : Z := 53.
Definition emax : Z := 1024.

Definition add : number -> number -> number := SFadd prec emax.
Definition sub : number -> number -> number := SFsub prec emax.
Definition mul : number -> number -> number := SFmul prec emax.
Definition div : number -> number -> number := SFdiv prec emax.
Definition neg : number -> number := SFopp.
Definition abs : number -> number := SFabs.
Definition ltb : number -> number -> bool := SFltb.

(** The Number nearest to the rational [a / b] (ties to even), for
    [0 <= a] and [0 < b]. *)
Definition ofRatio (a b : Z) : number :=
  match a with
  | Z0 => S754_zero false
  | _ =>
      let '(q, e, l) := SFdiv_core_binary prec emax a 0 b 0 in
      binary_round_aux prec emax false q e l
  end.

(** The Number for an integer. *)
Definition ofZ (z : Z) : number := binary_normalize prec emax z 0 false.

(** The global [isFinite] on a Number. *)
Definition isFinite (x : number) : bool :=
  match x with
  | S754_zero _ | S754_finite _ _ _ => true
  | S754_infinity _ | S754_nan => false
  end.

Definition eqRepr (x y : number) : bool :=
  match x, y with
  | S754_finite s1 m1 e1, S754_finite s2 m2 e2 =>
      Bool.eqb s1 s2 && Pos.eqb m1 m2 && Z.eqb e1 e2
  | S754_zero s1, S754_zero s2 => Bool.eqb s1 s2
  | S754_infinity s1, S754_infinity s2 => Bool.eqb s1 s2
  | S754_nan, S754_nan => true
  | _, _ => false
  end.

(** *** Number::toString, radix 10 *)

(** [scaled a b p] is the fraction [a / b * 10^p] as a pair. *)
Definition scaled (a b p : Z) : Z * Z :=
  if 0 <=? p then (a * 10 ^ p, b) else (a, b * 10 ^ (- p)).

(** The Number for [s * 10^p]. *)
Definition ofDecimal (s p : Z) : number :=
  let '(a, b) := scaled s 1 p in ofRatio a b.

(** Searches downwards from [n] for the decade of [a / b]: the [n] with
    [10^(n-1) <= a / b < 10^n]. *)
Fixpoint decade (fuel : nat) (a b n : Z) : Z :=
  match fuel with
  | O => n
  | S fuel' =>
      let '(c, d) := scaled a b (1 - n) in
      if d <=? c then n else decade fuel' a b (n - 1)
  end.

(** The digits [s] and position [n] of Number::toString for the
    positive finite value [x = a / b] of decade [n0]: the least [k]
    for which some [s] of [k] digits has [s * 10^(n-k)] round to [x],
    and among those the [s] nearest to [x] (the even one on a tie). *)
Fixpoint shortest (fuel : nat) (x : number) (a b n0 k : Z) : Z * Z :=
  let '(c, d) := scaled a b (k - n0) in
  let lo := c / d in
  let hi := lo + 1 in
  let okLo := eqRepr (ofDecimal lo (n0 - k)) x in
  let okHi := eqRepr (ofDecimal hi (n0 - k)) x in
  let norm s := if s =? 10 ^ k then (10 ^ (k - 1), n0 + 1) else (s, n0) in
  let r := 2 * c - (2 * lo + 1) * d in
  match okLo, okHi with
  | true, true =>
      if r <? 0 then norm lo
      else if 0 <? r then norm hi
      else if Z.even lo then norm lo else norm hi
  | true, false => norm lo
  | false, true => norm hi
  | false, false =>
      match fuel with
      | O => norm lo
      | S fuel' => shortest fuel' x a b n0 (k + 1)
      end
  end.

Definition decimal (z : Z) : string :=
  NilZero.string_of_uint (N.to_uint (Z.to_N z)).

Fixpoint zeros (n : nat) : string :=
  match n with
  | O => ""
  | S n' => String "0" (zeros n')
  end.

(** The text for digits [ds] and position [n], as Number::toString
    lays it out. *)
Definition layout (ds : string) (n : Z) : string :=
  let k := Z.of_nat (String.length ds) in
  if (k <=? n) && (n <=? 21) then
    ds ++ zeros (Z.to_nat (n - k))
  else if (0 <? n) && (n <=? 21) then
    substring 0 (Z.to_nat n) ds ++ "." ++
    substring (Z.to_nat n) (Z.to_nat (k - n)) ds
  else if (-6 <? n) && (n <=? 0) then
    "0." ++ zeros (Z.to_nat (- n)) ++ ds
  else
    let e := n - 1 in
    let es := (if e <? 0 then "-" else "+") ++ decimal (Z.abs e) in
    if k =? 1 then ds ++ "e" ++ es
    else substring 0 1 ds ++ "." ++
         substring 1 (Z.to_nat (k - 1)) ds ++ "e" ++ es.

Definition toStringPos (m : positive) (e : Z) : string :=
  let '(a, b) := if 0 <=? e then (Zpos m * 2 ^ e, 1)
                 else (Zpos m, 2 ^ (- e)) in
  let n0 := decade 640 a b 310 in
  let '(s, n) := shortest 16 (S754_finite false m e) a b n0 1 in
  layout (decimal s) n.

Definition toString (x : number) : string :=
  match x with
  | S754_nan => "NaN"
  | S754_zero _ => "0"
  | S754_infinity s => if s then "-Infinity" else "Infinity"
  | S754_finite s m e =>
      (if s then "-" else "") ++ toStringPos m e
  end.

End JsNumber.

Import JsNumber.

(** ** JavaScript strings *)

Module JsString.

(** [s.slice(-1)]: the last character, or the empty string. *)
Fixpoint sliceLast (s : string) : string :=
  match s with
  | "" => ""
  | String c "" => String c ""
  | String _ r => sliceLast r
  end.

(** [s.slice(0, -1)]: all but the last character. *)
Fixpoint sliceInit (s : string) : string :=
  match s with
  | "" => ""
  | String _ "" => ""
  | String c r => String c (sliceInit r)
  end.

(** [s.includes(c)] for a one-character needle. *)
Fixpoint includes (c : ascii) (s : string) : bool :=
  match s with
  | "" => false
  | String d r => Ascii.eqb d c || includes c r
  end.

(** [(s.match(/c/g) || []).length]. *)
Fixpoint countChar (c : ascii) (s : string) : nat :=
  match s with
  | "" => O
  | String d r => ((if Ascii.eqb d c then 1 else 0) + countChar c r)%nat
  end.

(** [s.replace(c, d)] with string arguments: the first occurrence only. *)
Fixpoint replaceFirst (c d : ascii) (s : string) : string :=
  match s with
  | "" => ""
  | String x r =>
      if Ascii.eqb x c then String d r else String x (replaceFirst c d r)
  end.

(** [s.replace(/c/g, d)]. *)
Fixpoint replaceAll (c d : ascii) (s : string) : string :=
  match s with
  | "" => ""
  | String x r =>
      String (if Ascii.eqb x c then d else x) (replaceAll c d r)
  end.

Fixpoint filter (p : ascii -> bool) (s : string) : string :=
  match s with
  | "" => ""
  | String x r => if p x then String x (filter p r) else filter p r
  end.

Fixpoint forallb (p : ascii -> bool) (s : string) : bool :=
  match s with
  | "" => true
  | String x r => p x && forallb p r
  end.

(** Some two adjacent characters both satisfy [p]: [/[p]{2,}/.test(s)]. *)
Fixpoint hasRun2 (p : ascii -> bool) (s : string) : bool :=
  match s with
  | String x (String y _ as r) => (p x && p y) || hasRun2 p r
  | _ => false
  end.

Definition startsWith (p : ascii -> bool) (s : string) : bool :=
  match s with
  | String x _ => p x
  | "" => false
  end.

Fixpoint endsWith (p : ascii -> bool) (s : string) : bool :=
  match s with
  | "" => false
  | String x "" => p x
  | String _ r => endsWith p r
  end.

(** [s.split(/[p]/)]: the pieces between separator characters. *)
Fixpoint split (p : ascii -> bool) (s : string) : list string :=
  match s with
  | "" => [""]
  | String x r =>
      if p x then "" :: split p r
      else match split p r with
           | part :: parts => String x part :: parts
           | [] => [String x ""]
           end
  end.

(** The multiplication sign U+00D7 and the division sign U+00F7. *)
Definition times : ascii := ascii_of_nat 215.
Definition obelus : ascii := ascii_of_nat 247.

Definition isDigit (c : ascii) : bool :=
  (48 <=? nat_of_ascii c)%nat && (nat_of_ascii c <=? 57)%nat.

(** The class [\s], on the code units below U+0100. *)
Definition isSpace (c : ascii) : bool :=
  existsb (Nat.eqb (nat_of_ascii c)) [9; 10; 11; 12; 13; 32; 160]%nat.

Definition oneOf (cs : string) (c : ascii) : bool := includes c cs.

End JsString.

Import JsString.

(** ** The host's evaluation of a validated expression text *)

Module Host.

(** What [Function('"use strict"; return (' + e + ')')()] does. *)
Inductive Completion :=
| Returned (v : number)
| Failed.

Fixpoint spanDigits (s : string) : string * string :=
  match s with
  | "" => ("", "")
  | String c r =>
      if isDigit c then let '(ds, r') := spanDigits r in (String c ds, r')
      else ("", s)
  end.

Definition digitsValue (ds : string) : Z :=
  (fix go (s : string) (acc : Z) : Z :=
     match s with
     | "" => acc
     | String c r => go r (10 * acc + (Z.of_nat (nat_of_ascii c) - 48))
     end) ds 0.

(** In strict code an integer part of two or more digits may not start
    with [0] (no legacy octal or octal-like decimal literals). *)
Definition legacyInteger (ip : string) : bool :=
  match ip with
  | String c (String _ _) => Ascii.eqb c "0"
  | _ => false
  end.

(** A DecimalLiteral without exponent at the head of [s]: [12], [12.],
    [12.5] or [.5]; its Number value and the rest of the text. *)
Definition numericLiteral (s : string) : option (number * string) :=
  let '(ip, r) := spanDigits s in
  match r with
  | String c r' =>
      if Ascii.eqb c "." then
        let '(fp, r'') := spanDigits r' in
        if (String.eqb ip "" && String.eqb fp "") || legacyInteger ip
        then None
        else Some (ofRatio (digitsValue (ip ++ fp))
                           (10 ^ Z.of_nat (String.length fp)), r'')
      else if String.eqb ip "" || legacyInteger ip then None
      else Some (ofRatio (digitsValue ip) 1, r)
  | "" =>
      if String.eqb ip "" || legacyInteger ip then None
      else Some (ofRatio (digitsValue ip) 1, r)
  end.

(** Recursive descent over the ECMAScript grammar that the validated
    alphabet can reach: AdditiveExpression, MultiplicativeExpression,
    UnaryExpression with prefix [+] and [-], parenthesised expressions
    and decimal literals.  A parser takes a text and gives the value of
    the phrase at its head with the text that follows it.  [None]
    stands for every other behaviour of the host on such a text: a
    SyntaxError, the TypeError of a call such as [5(3)], or (for a [/]
    in operand position, which starts a regular-expression literal) a
    value that is not a Number and whose numeric conversion is NaN.
    [safeEvaluate] answers "Error" to all of these. *)
Definition parser := string -> option (number * string).

Section Grammar.

(** The parser for the expression between parentheses. *)
Variable expression : parser.

Definition primaryExpression : parser := fun s =>
  match s with
  | String c r =>
      if Ascii.eqb c "(" then
        match expression r with
        | Some (v, String d r') =>
            if Ascii.eqb d ")" then Some (v, r') else None
        | _ => None
        end
      else numericLiteral s
  | "" => None
  end.

Fixpoint unaryExpression (s : string) : option (number * string) :=
  match s with
  | String c r =>
      if Ascii.eqb c "-" then
        match unaryExpression r with
        | Some (v, r') => Some (neg v, r')
        | None => None
        end
      else if Ascii.eqb c "+" then unaryExpression r
      else primaryExpression s
  | "" => None
  end.

(** The operators and operands that follow a first operand [acc],
    taken from the left; [k] bounds the number of operators. *)
Fixpoint multiplicativeRest (k : nat) (acc : number) (s : string)
  : option (number * string) :=
  match k, s with
  | S k', String c r =>
      if Ascii.eqb c "*" then
        match unaryExpression r with
        | Some (v, r') => multiplicativeRest k' (mul acc v) r'
        | None => None
        end
      else if Ascii.eqb c "/" then
        match unaryExpression r with
        | Some (v, r') => multiplicativeRest k' (div acc v) r'
        | None => None
        end
      else Some (acc, s)
  | _, _ => Some (acc, s)
  end.

Definition multiplicativeExpression : parser := fun s =>
  match unaryExpression s with
  | Some (v, r) => multiplicativeRest (String.length r) v r
  | None => None
  end.

Fixpoint additiveRest (k : nat) (acc : number) (s : string)
  : option (number * string) :=
  match k, s with
  | S k', String c r =>
      if Ascii.eqb c "+" then
        match multiplicativeExpression r with
        | Some (v, r') => additiveRest k' (add acc v) r'
        | None => None
        end
      else if Ascii.eqb c "-" then
        match multiplicativeExpression r with
        | Some (v, r') => additiveRest k' (sub acc v) r'
        | None => None
        end
      else Some (acc, s)
  | _, _ => Some (acc, s)
  end.

Definition additive : parser := fun s =>
  match multiplicativeExpression s with
  | Some (v, r) => additiveRest (String.length r) v r
  | None => None
  end.

End Grammar.

(** [fuel] bounds the depth of the parentheses. *)
Fixpoint additiveExpression (fuel : nat) : parser :=
  match fuel with
  | O => fun _ => None
  | S fuel' => additive (additiveExpression fuel')
  end.

Definition evalFunction (expression : string) : Completion :=
  match additiveExpression (S (String.length expression)) expression with
  | Some (v, "") => Returned v
  | _ => Failed
  end.

End Host.

Import Host.

(** ** The Calculator class *)

(** [this.currentExpression] and [this.lastResult] ([null] is [None]). *)
Record Calculator := mkCalculator {
  currentExpression : string;
  lastResult : option number
}.

(** What [safeEvaluate] returns: a Number or the string "Error". *)
Inductive EvaluationOutcome :=
| Value (v : number)
| Error.

(** The state the constructor sets up. *)
Definition initial : Calculator :=
  {| currentExpression := ""; lastResult := None |}.

(** [this.MINIMUM_VALUE_THRESHOLD = 1e-15]. *)
Definition MINIMUM_VALUE_THRESHOLD : number := ofRatio 1 (10 ^ 15).

Definition operators : list string :=
  ["+"; "-"; "*"; "/"; String times ""; String obelus ""].

Definition isNumericKey (key : string) : bool :=
  String.leb "0" key && String.leb key "9".

Definition isOperatorKey (key : string) : bool :=
  existsb (String.eqb key) operators.

Definition isOperator (char : string) : bool :=
  existsb (String.eqb char) operators.

Definition canAddDecimal (this : Calculator) : bool :=
  let parts := split (oneOf "+-*/()") (currentExpression this) in
  let lastPart := last parts "" in
  negb (includes "." lastPart).

Fixpoint validateParenthesesFrom (expression : string) (parenCount : Z)
    (lastChar : string) : bool :=
  match expression with
  | "" => parenCount =? 0
  | String c rest =>
      let char := String c "" in
      let parenCount :=
        if String.eqb char "(" then parenCount + 1 else parenCount in
      if String.eqb char ")" then
        let parenCount := parenCount - 1 in
        if parenCount <? 0 then false
        else if String.eqb lastChar "(" then false
        else validateParenthesesFrom rest parenCount char
      else validateParenthesesFrom rest parenCount char
  end.

Definition validateParentheses (expression : string) : bool :=
  validateParenthesesFrom expression 0 "".

(** [/\d*\./] anchored at the head of [s]. *)
Fixpoint digitsThenDot (s : string) : bool :=
  match s with
  | "" => false
  | String c r => if isDigit c then digitsThenDot r else Ascii.eqb c "."
  end.

(** [/\d+\.\d*\./.test(s)]. *)
Fixpoint twoDecimalPoints (s : string) : bool :=
  match s with
  | "" => false
  | String c r =>
      (isDigit c &&
       match r with
       | String d r' => Ascii.eqb d "." && digitsThenDot r'
       | "" => false
       end) || twoDecimalPoints r
  end.

Definition isExpressionChar (c : ascii) : bool :=
  isDigit c || oneOf "+-*/()." c || isSpace c.

Definition isValidExpression (expression : string) : bool :=
  if String.eqb expression "" then false
  else if negb (JsString.forallb isExpressionChar expression) then false
  else if hasRun2 (oneOf "+*/") expression || hasRun2 (oneOf "-") expression
  then false
  else if startsWith (oneOf "+*/") expression then false
  else if endsWith (oneOf "+-*/") expression then false
  else if negb (validateParentheses expression) then false
  else if hasRun2 (oneOf ".") expression then false
  else if twoDecimalPoints expression then false
  else true.

(** The three [replace] calls that open [safeEvaluate]. *)
Definition sanitize (expression : string) : string :=
  replaceAll obelus "/"
    (replaceAll times "*" (JsString.filter (fun c => negb (isSpace c)) expression)).

Definition safeEvaluate (expression : string) : EvaluationOutcome :=
  let expression := sanitize expression in
  if negb (isValidExpression expression) then Error
  else
    match evalFunction expression with
    | Failed => Error
    | Returned result =>
        if negb (isFinite result) then Error
        else if ltb (abs result) MINIMUM_VALUE_THRESHOLD
        then Value (S754_zero false)
        else Value result
    end.

Definition clearCalculator (this : Calculator) : Calculator :=
  {| currentExpression := ""; lastResult := None |}.

Definition handleBackspace (this : Calculator) : Calculator :=
  let expression := sliceInit (currentExpression this) in
  match lastResult this with
  | Some r =>
      if String.eqb expression (sliceInit (toString r))
      then {| currentExpression := expression; lastResult := None |}
      else {| currentExpression := expression; lastResult := Some r |}
  | None => {| currentExpression := expression; lastResult := None |}
  end.

Definition calculateResult (this : Calculator) : Calculator :=
  if String.eqb (currentExpression this) "" then this
  else
    match safeEvaluate (currentExpression this) with
    | Value result =>
        {| currentExpression := toString result; lastResult := Some result |}
    | Error => {| currentExpression := ""; lastResult := None |}
    end.

Definition handleDecimalInput (this : Calculator) (lastChar : string)
  : Calculator :=
  if negb (canAddDecimal this) then this
  else if String.eqb (currentExpression this) "" || isOperator lastChar
          || String.eqb lastChar "("
  then {| currentExpression := currentExpression this ++ "0.";
          lastResult := lastResult this |}
  else if negb (String.eqb lastChar ".") && negb (isOperator lastChar)
          && negb (String.eqb lastChar "(")
  then {| currentExpression := currentExpression this ++ ".";
          lastResult := lastResult this |}
  else this.

Definition handleNumberInput (this : Calculator) (input lastChar : string)
  : Calculator :=
  match lastResult this with
  | Some _ =>
      if negb (isOperator lastChar) && negb (String.eqb lastChar ".")
      then {| currentExpression := input; lastResult := None |}
      else {| currentExpression := currentExpression this ++ input;
              lastResult := lastResult this |}
  | None => {| currentExpression := currentExpression this ++ input;
               lastResult := None |}
  end.

Definition normalizeOperator (input : string) : string :=
  replaceFirst obelus "/" (replaceFirst times "*" input).

Definition handleOperatorInput (this : Calculator) (input lastChar : string)
  : Calculator :=
  let normalizedInput := normalizeOperator input in
  if String.eqb (currentExpression this) ""
     && negb (String.eqb normalizedInput "-")
  then this
  else if isOperator lastChar
  then {| currentExpression :=
            sliceInit (currentExpression this) ++ normalizedInput;
          lastResult := lastResult this |}
  else if negb (String.eqb lastChar "")
  then {| currentExpression := currentExpression this ++ normalizedInput;
          lastResult := None |}
  else this.

Definition handleParenthesesInput (this : Calculator) (input lastChar : string)
  : Calculator :=
  let expression :=
    if String.eqb input "(" then
      (if negb (String.eqb lastChar "") && negb (isOperator lastChar)
          && negb (String.eqb lastChar "(")
       then currentExpression this ++ "*"
       else currentExpression this) ++ "("
    else if String.eqb input ")" then
      let openParens := countChar "(" (currentExpression this) in
      let closeParens := countChar ")" (currentExpression this) in
      if (closeParens <? openParens)%nat && negb (String.eqb lastChar "(")
         && negb (isOperator lastChar)
      then currentExpression this ++ ")"
      else currentExpression this
    else currentExpression this in
  {| currentExpression := expression; lastResult := None |}.

(** [handleInput]; the closing [updateDisplay] call only writes to the
    page and is left out. *)
Definition handleInput (this : Calculator) (input : string) : Calculator :=
  let lastChar := sliceLast (currentExpression this) in
  if String.eqb input "clear" then clearCalculator this
  else if String.eqb input "backspace" then handleBackspace this
  else if String.eqb input "equal" then calculateResult this
  else if String.eqb input "." then handleDecimalInput this lastChar
  else if isNumericKey input then handleNumberInput this input lastChar
  else if isOperator input || isOperatorKey input
  then handleOperatorInput this input lastChar
  else if String.eqb input "(" || String.eqb input ")"
  then handleParenthesesInput this input lastChar
  else this.

(** A run of the calculator: the inputs handled one after the other. *)
Definition handleInputs (this : Calculator) (inputs : list string)
  : Calculator :=
  fold_left handleInput inputs this.

(** The digit tokens. *)
Definition digits : list string :=
  ["0"; "1"; "2"; "3"; "4"; "5"; "6"; "7"; "8"; "9"].

(** The input tokens of the calculator: a digit, an operator (with the
    multiplication and division signs), the decimal point, a parenthesis,
    or one of the commands. *)
Definition isToken (input : string) : bool :=
  existsb (String.eqb input)
    (digits ++ operators ++ ["."; "("; ")"; "clear"; "backspace"; "equal"]).

(** The guards under which a handler turns an input down: a decimal
    point that [canAddDecimal] refuses, an operator other than [-] on an
    empty expression, and a [)] that fails the test of
    [handleParenthesesInput]. *)
Definition rejects (this : Calculator) (input : string) : bool :=
  let lastChar := sliceLast (currentExpression this) in
  if String.eqb input "." then negb (canAddDecimal this)
  else if isOperator input then
    String.eqb (currentExpression this) ""
    && negb (String.eqb (normalizeOperator input) "-")
  else if String.eqb input ")" then
    negb ((countChar ")" (currentExpression this)
           <? countChar "(" (currentExpression this))%nat
          && negb (String.eqb lastChar "(")
          && negb (isOperator lastChar))
  else false.

(** The alphabet of expressions: [0-9 + - * / ( ) .]. *)
Definition isAlphabetChar (c : ascii) : bool :=
  isDigit c || oneOf "+-*/()." c.

(** The alphabet together with the exponent marker of [toString]. *)
Definition isLiveChar (c : ascii) : bool :=
  isAlphabetChar c || Ascii.eqb c "e".

(** The characters [toString] writes for a finite Number. *)
Definition isNumberChar (c : ascii) : bool :=
  isDigit c || oneOf "-.e+" c.

(** The number of groups still open after reading [s] from depth [d], or
    [None] when some [)] has no [(] before it. *)
Fixpoint openDepth (s : string) (d : nat) : option nat :=
  match s with
  | "" => Some d
  | String c r =>
      if Ascii.eqb c "(" then openDepth r (S d)
      else if Ascii.eqb c ")" then
        match d with
        | O => None
        | S d' => openDepth r d'
        end
      else openDepth r d
  end.

(** The strings that the handlers append to the expression. *)
Definition pieces : list string :=
  digits ++ ["+"; "-"; "*"; "/"; "0."; "."; "("; "*("].

(** How one input can change the expression [e]. *)
Inductive edit (e : string) : string -> Prop :=
| edit_keep : edit e e
| edit_clear : edit e ""
| edit_backspace : edit e (sliceInit e)
| edit_result (v : number) : isFinite v = true -> edit e (toString v)
| edit_fresh (digit : string) : In digit digits -> edit e digit
| edit_append (t : string) : In t pieces -> edit e (e ++ t)
| edit_replace (t : string) :
    In t ["+"; "-"; "*"; "/"] -> edit e (sliceInit e ++ t)
| edit_close :
    (countChar ")" e < countChar "(" e)%nat -> edit e (e ++ ")").

(** [lastResult] is [null] or a finite Number. *)
Definition finiteResult (this : Calculator) : Prop :=
  match lastResult this with
  | Some v => isFinite v = true
  | None => True
  end.

(** ** Further definitions: validator, decimal points, operator runs *)

(** The character [c] directly followed by the character [d]. *)
Fixpoint hasAdjacent (c d : ascii) (s : string) : bool :=
  match s with
  | String x (String y _ as r) =>
      (Ascii.eqb x c && Ascii.eqb y d) || hasAdjacent c d r
  | _ => false
  end.

(** The characters [safeEvaluate] can accept: the alphabet, white space
    and the multiplication and division signs. *)
Definition isEvaluableChar (c : ascii) : bool :=
  isAlphabetChar c || isSpace c || Ascii.eqb c times || Ascii.eqb c obelus.

(** The state after "clear" and after a failed evaluation. *)
Definition cleared : Calculator :=
  {| currentExpression := ""; lastResult := None |}.

(** [isOperator] on one character. *)
Definition isOperatorChar (c : ascii) : bool := isOperator (String c "").

(** The texts without any character of [p]. *)
Definition free (p : ascii -> bool) (s : string) : Prop :=
  JsString.forallb (fun c => negb (p c)) s = true.

(** What [canAddDecimal] looks at: whether the part of the expression
    after its last operator or parenthesis holds a decimal point. *)
Definition lastPartHasPoint (e : string) : bool :=
  includes "." (last (split (oneOf "+-*/()") e) "").

(** Reading [s] from the left: whether the number being read holds a
    decimal point ([seen] says so at the start); an operator or a
    parenthesis starts a new number. *)
Fixpoint trackPoint (s : string) (seen : bool) : bool :=
  match s with
  | "" => seen
  | String c r =>
      if oneOf "+-*/()" c then trackPoint r false
      else trackPoint r (Ascii.eqb c "." || seen)
  end.

(** As [trackPoint], but [None] when some number holds two decimal
    points. *)
Fixpoint decimalScan (s : string) (seen : bool) : option bool :=
  match s with
  | "" => Some seen
  | String c r =>
      if oneOf "+-*/()" c then decimalScan r false
      else if Ascii.eqb c "." then
        if seen then None else decimalScan r true
      else decimalScan r seen
  end.

(** How one input token can change the expression [e], with the tests
    that the handlers make before they append. *)
Inductive guardedEdit (e : string) : string -> Prop :=
| guarded_keep : guardedEdit e e
| guarded_clear : guardedEdit e ""
| guarded_backspace : guardedEdit e (sliceInit e)
| guarded_result (v : number) :
    isFinite v = true -> guardedEdit e (toString v)
| guarded_fresh (digit : string) : In digit digits -> guardedEdit e digit
| guarded_digit (digit : string) :
    In digit digits -> guardedEdit e (e ++ digit)
| guarded_operator (t : string) :
    In t ["+"; "-"; "*"; "/"] ->
    isOperator (sliceLast e) = false -> guardedEdit e (e ++ t)
| guarded_replace (t : string) :
    In t ["+"; "-"; "*"; "/"] ->
    isOperator (sliceLast e) = true -> guardedEdit e (sliceInit e ++ t)
| guarded_point (t : string) :
    In t ["."; "0."] ->
    lastPartHasPoint e = false -> guardedEdit e (e ++ t)
| guarded_open : guardedEdit e (e ++ "(")
| guarded_times_open :
    isOperator (sliceLast e) = false -> guardedEdit e (e ++ "*(")
| guarded_close :
    isOperator (sliceLast e) = false ->
    (countChar ")" e < countChar "(" e)%nat -> guardedEdit e (e ++ ")").

(** ** Further definitions: the keyboard *)

Definition isSpecialCharKey (key : string) : bool :=
  existsb (String.eqb key) ["."; "("; ")"].

Definition isCalculatorKey (key : string) : bool :=
  isNumericKey key || isOperatorKey key || isSpecialCharKey key
  || existsb (String.eqb key)
       ["Enter"; "="; "Backspace"; "Escape"; "Delete"; "c"; "C"].

(** [String.prototype.toLowerCase] on the code units below U+0100: the
    letters A-Z and U+00C0..U+00DE without the multiplication sign have a
    lower-case form, 32 places up. *)
Definition lowerChar (c : ascii) : ascii :=
  let n := nat_of_ascii c in
  if ((65 <=? n) && (n <=? 90)
      || (192 <=? n) && (n <=? 222) && negb (n =? 215))%nat
  then ascii_of_nat (n + 32)
  else c.

Fixpoint toLowerCase (s : string) : string :=
  match s with
  | "" => ""
  | String c r => String (lowerChar c) (toLowerCase r)
  end.

(** [handleKeyboard] on [event.key]; [event.preventDefault], called for
    the keys of [isCalculatorKey], does not touch the calculator. *)
Definition handleKeyboard (this : Calculator) (key : string) : Calculator :=
  if isNumericKey key || isOperatorKey key || isSpecialCharKey key
  then handleInput this key
  else if String.eqb key "Enter" || String.eqb key "="
  then handleInput this "equal"
  else if String.eqb key "Backspace" then handleInput this "backspace"
  else if String.eqb key "Escape" || String.eqb key "Delete"
  then handleInput this "clear"
  else if String.eqb (toLowerCase key) "c" then handleInput this "clear"
  else this.

(** The input that a calculator key stands for: a command for the keys
    that [handleKeyboard] names, and the key itself otherwise. *)
Definition keyboardInput (key : string) : string :=
  if String.eqb key "Enter" || String.eqb key "=" then "equal"
  else if String.eqb key "Backspace" then "backspace"
  else if existsb (String.eqb key) ["Escape"; "Delete"; "c"; "C"]
  then "clear"
  else key.

(** ** Further definitions: the display *)

(** [isNaN] on a Number. *)
Definition isNaN (x : number) : bool :=
  match x with
  | S754_nan => true
  | _ => false
  end.

(** A well-formed ExponentPart at the head of [s]: its value, and 0 when
    there is none. *)
Definition exponentPart (s : string) : Z :=
  match s with
  | String c r =>
      if Ascii.eqb c "e" || Ascii.eqb c "E" then
        let '(negative, r') :=
          match r with
          | String d r' =>
              if Ascii.eqb d "-" then (true, r')
              else if Ascii.eqb d "+" then (false, r')
              else (false, r)
          | "" => (false, r)
          end in
        let '(ds, _) := spanDigits r' in
        if String.eqb ds "" then 0
        else if negative then - digitsValue ds else digitsValue ds
      else 0
  | "" => 0
  end.

(** The Number of the longest StrUnsignedDecimalLiteral at the head of
    [s], or [None] when no prefix of [s] is one. *)
Definition strUnsignedDecimalLiteral (s : string) : option number :=
  if prefix "Infinity" s then Some (S754_infinity false)
  else
    let '(ip, r) := spanDigits s in
    match r with
    | String c r' =>
        if Ascii.eqb c "." then
          let '(fp, r'') := spanDigits r' in
          if String.eqb ip "" && String.eqb fp "" then None
          else Some (ofDecimal (digitsValue (ip ++ fp))
                       (exponentPart r'' - Z.of_nat (String.length fp)))
        else if String.eqb ip "" then None
        else Some (ofDecimal (digitsValue ip) (exponentPart r))
    | "" =>
        if String.eqb ip "" then None else Some (ofDecimal (digitsValue ip) 0)
    end.

Fixpoint trimStart (s : string) : string :=
  match s with
  | "" => ""
  | String c r => if isSpace c then trimStart r else s
  end.

(** The global [parseFloat] on a string. *)
Definition parseFloat (s : string) : number :=
  let t := trimStart s in
  let '(negative, u) :=
    match t with
    | String c r =>
        if Ascii.eqb c "-" then (true, r)
        else if Ascii.eqb c "+" then (false, r)
        else (false, t)
    | "" => (false, t)
    end in
  match strUnsignedDecimalLiteral u with
  | Some v => if negative then neg v else v
  | None => S754_nan
  end.

(** The exact value of a positive finite Number as a fraction. *)
Definition ratioOf (m : positive) (e : Z) : Z * Z :=
  if 0 <=? e then (Zpos m * 2 ^ e, 1) else (Zpos m, 2 ^ (- e)).

(** The integer nearest to [c / d], the larger one on a tie. *)
Definition nearestUp (c d : Z) : Z := (2 * c + d) / (2 * d).

(** [Number.prototype.toExponential]: the text for the digits [m] and
    the exponent [e], with [f] digits after the point. *)
Definition exponentialText (f : Z) (m : string) (e : Z) : string :=
  let m := if f =? 0 then m
           else substring 0 1 m ++ "." ++ substring 1 (Z.to_nat f) m in
  let '(c, d) := if e =? 0 then ("+", "0")
                 else if 0 <? e then ("+", decimal e)
                 else ("-", decimal (- e)) in
  m ++ "e" ++ c ++ d.

Definition toExponential (f : Z) (x : number) : string :=
  match x with
  | S754_nan | S754_infinity _ => toString x
  | S754_zero _ => exponentialText f (zeros (Z.to_nat (f + 1))) 0
  | S754_finite s m e =>
      let '(a, b) := ratioOf m e in
      let e0 := decade 640 a b 310 - 1 in
      let '(c, d) := scaled a b (f - e0) in
      let n := nearestUp c d in
      let '(n, e1) := if n =? 10 ^ (f + 1) then (10 ^ f, e0 + 1)
                      else (n, e0) in
      (if s then "-" else "") ++ exponentialText f (decimal n) e1
  end.

(** [Number.prototype.toFixed]: the text for the integer [n] with [f]
    digits after the point. *)
Definition fixedText (f : Z) (n : Z) : string :=
  let m := decimal n in
  if f =? 0 then m
  else
    let k := Z.of_nat (String.length m) in
    let m := if k <=? f then zeros (Z.to_nat (f + 1 - k)) ++ m else m in
    let k := Z.of_nat (String.length m) in
    substring 0 (Z.to_nat (k - f)) m ++ "." ++
    substring (Z.to_nat (k - f)) (Z.to_nat f) m.

Definition toFixed (f : Z) (x : number) : string :=
  match x with
  | S754_nan | S754_infinity _ => toString x
  | S754_zero _ => fixedText f 0
  | S754_finite s m e =>
      let '(a, b) := ratioOf m e in
      (if s then "-" else "") ++
      if 10 ^ 21 * b <=? a then toString (S754_finite false m e)
      else let '(c, d) := scaled a b f in fixedText f (nearestUp c d)
  end.

(** [x % 1]: the remainder has the sign of [x] and is exact. *)
Definition remainderOne (x : number) : number :=
  match x with
  | S754_nan | S754_infinity _ => S754_nan
  | S754_zero s => S754_zero s
  | S754_finite s m e =>
      if 0 <=? e then S754_zero s
      else
        let r := Zpos m mod 2 ^ (- e) in
        if r =? 0 then S754_zero s
        else binary_normalize prec emax (if s then - r else r) e false
  end.

(** [x !== 0] on a Number. *)
Definition isNotZero (x : number) : bool := negb (SFeqb x (S754_zero false)).

Definition MAX_DISPLAY_LENGTH : nat := 25.
Definition MAX_DECIMAL_PLACES : Z := 10.
Definition SCIENTIFIC_NOTATION_THRESHOLD : number := ofZ (10 ^ 10).

(** Some character of [s] satisfies [p]: [/[p]/.test(s)]. *)
Fixpoint anyChar (p : ascii -> bool) (s : string) : bool :=
  match s with
  | "" => false
  | String c r => p c || anyChar p r
  end.

(** [s.replace(/^-/, '')]. *)
Definition dropLeadingMinus (s : string) : string :=
  match s with
  | String c r => if Ascii.eqb c "-" then r else s
  | "" => ""
  end.

(** [s.slice(-n)] for a positive [n]: the last [n] characters. *)
Definition sliceEnd (n : nat) (s : string) : string :=
  substring (String.length s - n) n s.

Definition isNumericResult (text : string) : bool :=
  if String.eqb text "Error" || String.eqb text "" || String.eqb text "0"
  then String.eqb text "0"
  else
    let num := parseFloat text in
    if isNaN num || negb (isFinite num) then false
    else
      let cleanText := dropLeadingMinus text in
      negb (anyChar (oneOf "+-*/()") cleanText).

Definition formatNumber (numStr : string) : string :=
  let num := parseFloat numStr in
  if isNaN num || negb (isFinite num) then "Error"
  else if SFleb SCIENTIFIC_NOTATION_THRESHOLD (abs num)
          || (ltb (abs num) (ofRatio 1 (10 ^ 6)) && isNotZero num)
  then toExponential 6 num
  else if isNotZero (remainderOne num)
  then toString (parseFloat (toFixed MAX_DECIMAL_PLACES num))
  else toString num.

(** The text that [updateDisplay] writes to the display. *)
Definition displayText (this : Calculator) : string :=
  let displayText :=
    if String.eqb (currentExpression this) "" then "0"
    else currentExpression this in
  let displayText :=
    if (MAX_DISPLAY_LENGTH <? String.length displayText)%nat
    then "..." ++ sliceEnd (MAX_DISPLAY_LENGTH - 3) displayText
    else displayText in
  if isNumericResult displayText then formatNumber displayText
  else displayText.

(** ** Further definitions: the theme *)

(** [this.isDark] and the item 'calculatorTheme' of [localStorage]
    ([None] when it is not set).  The class lists of the page, which
    [toggleTheme] toggles as well, are left out. *)
Record Theme := mkTheme {
  isDark : bool;
  calculatorTheme : option string
}.

(** [saveThemePreference]; [stores] tells whether [localStorage.setItem]
    returns, and when it throws the method only logs a warning. *)
Definition saveThemePreference (stores : bool) (this : Theme) : Theme :=
  if stores
  then {| isDark := isDark this;
          calculatorTheme := Some (if isDark this then "dark" else "light") |}
  else this.

Definition toggleTheme (stores : bool) (this : Theme) : Theme :=
  saveThemePreference stores
    {| isDark := negb (isDark this);
       calculatorTheme := calculatorTheme this |}.

(** [loadThemePreference]; [reads] tells whether [localStorage.getItem]
    returns, and when it throws the method only logs a warning.
    [stores] is for the [toggleTheme] call inside. *)
Definition loadThemePreference (reads stores : bool) (this : Theme) : Theme :=
  if reads then
    match calculatorTheme this with
    | Some savedTheme =>
        if String.eqb savedTheme "light" && isDark this
        then toggleTheme stores this
        else this
    | None => this
    end
  else this.

(** The theme of a calculator that is constructed while [localStorage]
    holds [saved]: the constructor sets [isDark] to [true], and calls
    [init] when [validateElements] passes; [init] calls
    [loadThemePreference] after [setupEventListeners].  [ready] tells
    whether the constructor gets that far: the required elements are on
    the page and [setupEventListeners] does not throw. *)
Definition themeAtStart (ready reads stores : bool) (saved : option string)
  : Theme :=
  let this := {| isDark := true; calculatorTheme := saved |} in
  if ready then loadThemePreference reads stores this else this.

(** A run of [toggleTheme] calls; each element of [toggles] tells whether
    that call could store the preference. *)
Definition toggleThemes (this : Theme) (toggles : list bool) : Theme :=
  fold_left (fun theme stores => toggleTheme stores theme) toggles this.

(** ** Strings *)

Section StringFacts.

Variable p : ascii -> bool.

Lemma forallb_app (s t : string) :
  JsString.forallb p (s ++ t) = JsString.forallb p s && JsString.forallb p t.
Proof.
  induction s as [|c s IH]; simpl; [reflexivity|].
  now rewrite IH, andb_assoc.
Qed.

Lemma forallb_sliceInit (s : string) :
  JsString.forallb p s = true -> JsString.forallb p (sliceInit s) = true.
Proof.
  induction s as [|c s IH]; simpl; [reflexivity|].
  destruct s as [|d s]; [reflexivity|].
  intros H. apply andb_true_iff in H as [Hc Hs].
  change (p c && JsString.forallb p (sliceInit (String d s)) = true).
  now rewrite Hc, IH.
Qed.

Lemma forallb_substring (s : string) (n m : nat) :
  JsString.forallb p s = true -> JsString.forallb p (substring n m s) = true.
Proof.
  revert n m.
  induction s as [|c s IH]; intros n m H.
  - now destruct n, m.
  - simpl in H. apply andb_true_iff in H as [Hc Hs].
    destruct n as [|n]; [destruct m as [|m]|]; simpl; auto.
    now rewrite Hc, IH.
Qed.

Lemma forallb_weaken (q : ascii -> bool) (s : string) :
  (forall c, p c = true -> q c = true) ->
  JsString.forallb p s = true -> JsString.forallb q s = true.
Proof.
  intros Hpq. induction s as [|c s IH]; simpl; [reflexivity|].
  intros H. apply andb_true_iff in H as [Hc Hs].
  now rewrite (Hpq _ Hc), IH.
Qed.

End StringFacts.

Lemma append_empty_r (s : string) : s ++ "" = s.
Proof. induction s as [|c s IH]; simpl; congruence. Qed.

Lemma append_assoc (s t u : string) : (s ++ t) ++ u = s ++ t ++ u.
Proof. induction s as [|c s IH]; simpl; congruence. Qed.

Lemma sliceInit_snoc (s : string) (c : ascii) :
  sliceInit (s ++ String c "") = s.
Proof.
  induction s as [|d s IH]; [reflexivity|].
  simpl. rewrite IH. now destruct s.
Qed.

Lemma sliceLast_snoc (s : string) (c : ascii) :
  sliceLast (s ++ String c "") = String c "".
Proof.
  induction s as [|d s IH]; [reflexivity|].
  simpl. rewrite IH. now destruct s.
Qed.

(** A string is its [slice(0, -1)] followed by its [slice(-1)]. *)
Lemma slice_split (s : string) : s = sliceInit s ++ sliceLast s.
Proof.
  induction s as [|c s IH]; [reflexivity|].
  destruct s as [|d s]; [reflexivity|].
  change (String c (String d s)
          = String c (sliceInit (String d s) ++ sliceLast (String d s))).
  now rewrite <- IH.
Qed.

Lemma sliceLast_cases (s : string) :
  (s = "" /\ sliceLast s = "") \/ exists c, sliceLast s = String c "".
Proof.
  induction s as [|c s IH]; [now left|].
  right. destruct s as [|d s]; [now exists c|].
  destruct IH as [[H _]|[x Hx]]; [discriminate|].
  exists x. exact Hx.
Qed.

Lemma countChar_app (c : ascii) (s t : string) :
  countChar c (s ++ t) = (countChar c s + countChar c t)%nat.
Proof. induction s as [|d s IH]; simpl; [reflexivity|]. rewrite IH. lia. Qed.

Lemma existsb_eqb_In (x : string) (l : list string) :
  existsb (String.eqb x) l = true <-> In x l.
Proof.
  rewrite existsb_exists. split.
  - intros [y [Hy He]]. apply String.eqb_eq in He. now subst.
  - intros H. exists x. split; [exact H | apply String.eqb_refl].
Qed.

(** ** Numbers *)

Lemma string_of_uint_digits (d : Decimal.uint) :
  JsString.forallb isDigit (NilEmpty.string_of_uint d) = true.
Proof. induction d; simpl; auto. Qed.

Lemma decimal_digits (z : Z) : JsString.forallb isDigit (decimal z) = true.
Proof.
  unfold decimal, NilZero.string_of_uint.
  destruct (N.to_uint (Z.to_N z)); try reflexivity;
    apply string_of_uint_digits.
Qed.

Lemma zeros_digits (n : nat) : JsString.forallb isDigit (zeros n) = true.
Proof. induction n; simpl; auto. Qed.

Lemma digit_isNumberChar (c : ascii) :
  isDigit c = true -> isNumberChar c = true.
Proof. unfold isNumberChar. now intros ->. Qed.

Lemma layout_chars (ds : string) (n : Z) :
  JsString.forallb isDigit ds = true ->
  JsString.forallb isNumberChar (layout ds n) = true.
Proof.
  intros Hds.
  assert (Hn : JsString.forallb isNumberChar ds = true)
    by (eapply forallb_weaken; [apply digit_isNumberChar | exact Hds]).
  assert (Hz : forall k, JsString.forallb isNumberChar (zeros k) = true)
    by (intros k; eapply forallb_weaken;
        [apply digit_isNumberChar | apply zeros_digits]).
  assert (He : forall z, JsString.forallb isNumberChar (decimal z) = true)
    by (intros z; eapply forallb_weaken;
        [apply digit_isNumberChar | apply decimal_digits]).
  unfold layout.
  repeat match goal with
         | |- context [if ?b then _ else _] => destruct b
         end;
    repeat rewrite forallb_app;
    repeat rewrite forallb_substring by exact Hn;
    rewrite ?Hn, ?Hz, ?He; reflexivity.
Qed.

Lemma toString_chars (v : number) :
  isFinite v = true -> JsString.forallb isNumberChar (toString v) = true.
Proof.
  destruct v as [s|s| |s m e]; simpl; try discriminate; [reflexivity|].
  intros _. rewrite forallb_app.
  assert (H : JsString.forallb isNumberChar (toStringPos m e) = true).
  { unfold toStringPos.
    destruct (if 0 <=? e then _ else _) as [a b].
    destruct (shortest _ _ _ _ _ _) as [d n].
    apply layout_chars, decimal_digits. }
  rewrite H. now destruct s.
Qed.

(** ** The host parser does not run out of fuel *)

Lemma spanDigits_length (s : string) :
  (String.length (snd (spanDigits s)) <= String.length s)%nat.
Proof.
  induction s as [|c s IH]; simpl; [lia|].
  destruct (isDigit c); simpl; [|lia].
  destruct (spanDigits s) as [ds r]. simpl in *. lia.
Qed.

Lemma numericLiteral_length (s : string) (v : number) (r : string) :
  numericLiteral s = Some (v, r) -> (String.length r <= String.length s)%nat.
Proof.
  unfold numericLiteral.
  pose proof (spanDigits_length s) as Hs.
  destruct (spanDigits s) as [ip t]. simpl in Hs.
  destruct t as [|c t].
  - destruct (_ || _); intros [= <- <-]. exact Hs.
  - destruct (Ascii.eqb c ".").
    + pose proof (spanDigits_length t) as Ht.
      destruct (spanDigits t) as [fp u]. simpl in Ht, Hs.
      destruct (_ || _); intros [= <- <-]. lia.
    + destruct (_ || _); intros [= <- <-]. exact Hs.
Qed.

Section ParserFuel.

(** Two parsers for the parenthesised expressions that agree on the
    texts shorter than [n] and give back no more than they take. *)
Variables e1 e2 : parser.
Variable n : nat.
Hypothesis agree :
  forall r, (String.length r < n)%nat -> e1 r = e2 r.
Hypothesis shorter :
  forall r v r', (String.length r < n)%nat ->
    e1 r = Some (v, r') -> (String.length r' <= String.length r)%nat.

Lemma primaryExpression_agree (s : string) :
  (String.length s <= n)%nat ->
  primaryExpression e1 s = primaryExpression e2 s.
Proof.
  destruct s as [|c r]; [reflexivity|]. simpl. intros Hs.
  destruct (Ascii.eqb c "("); [|reflexivity].
  rewrite agree by lia. reflexivity.
Qed.

Lemma primaryExpression_length (s : string) (v : number) (r' : string) :
  (String.length s <= n)%nat ->
  primaryExpression e1 s = Some (v, r') ->
  (String.length r' <= String.length s)%nat.
Proof.
  destruct s as [|c r]; [discriminate|]. simpl. intros Hs.
  destruct (Ascii.eqb c "(").
  - destruct (e1 r) as [[w [|d t]]|] eqn:He; try discriminate.
    destruct (Ascii.eqb d ")"); [|discriminate].
    intros [= <- <-]. apply shorter in He; [|lia]. simpl in He. lia.
  - intros H. apply numericLiteral_length in H. exact H.
Qed.

Lemma unaryExpression_agree (s : string) :
  (String.length s <= n)%nat ->
  unaryExpression e1 s = unaryExpression e2 s.
Proof.
  induction s as [|c r IH]; [reflexivity|]. intros Hs.
  pose proof (primaryExpression_agree (String c r) Hs) as Hp.
  simpl in Hs. cbn [unaryExpression].
  rewrite IH by lia. now rewrite Hp.
Qed.

Lemma unaryExpression_length (s : string) (v : number) (r' : string) :
  (String.length s <= n)%nat ->
  unaryExpression e1 s = Some (v, r') ->
  (String.length r' <= String.length s)%nat.
Proof.
  revert v. induction s as [|c r IH]; [discriminate|]. intros v Hs.
  pose proof (primaryExpression_length (String c r) v r' Hs) as Hp.
  simpl in Hs. cbn [unaryExpression].
  destruct (Ascii.eqb c "-").
  - destruct (unaryExpression e1 r) as [[w t]|] eqn:Hu; [|discriminate].
    intros [= <- <-]. specialize (IH w ltac:(lia) eq_refl). simpl. lia.
  - destruct (Ascii.eqb c "+"); [|exact Hp].
    intros H. apply IH in H; [|lia]. simpl. lia.
Qed.

Lemma multiplicativeRest_agree (k1 k2 : nat) (acc : number) (s : string) :
  (String.length s <= n)%nat ->
  (String.length s <= k1)%nat -> (String.length s <= k2)%nat ->
  multiplicativeRest e1 k1 acc s = multiplicativeRest e2 k2 acc s.
Proof.
  revert k2 acc s.
  induction k1 as [|k1 IH]; intros k2 acc s Hn H1 H2.
  - destruct s; [|simpl in H1; lia]. now destruct k2.
  - destruct s as [|c r]; [now destruct k2|].
    destruct k2 as [|k2]; [simpl in H2; lia|].
    simpl in Hn, H1, H2. cbn [multiplicativeRest].
    rewrite <- (unaryExpression_agree r) by lia.
    destruct (unaryExpression e1 r) as [[v r']|] eqn:Hu;
      [|reflexivity].
    apply unaryExpression_length in Hu; [|lia].
    rewrite !(IH k2) by lia. reflexivity.
Qed.

Lemma multiplicativeRest_length (k : nat) (acc v : number) (s r' : string) :
  (String.length s <= n)%nat ->
  multiplicativeRest e1 k acc s = Some (v, r') ->
  (String.length r' <= String.length s)%nat.
Proof.
  revert acc s.
  induction k as [|k IH]; intros acc s Hn; [now intros [= <- <-]|].
  destruct s as [|c r]; [now intros [= <- <-]|].
  simpl in Hn. cbn [multiplicativeRest].
  destruct (unaryExpression e1 r) as [[w t]|] eqn:Hu.
  - apply unaryExpression_length in Hu; [|lia].
    destruct (Ascii.eqb c "*");
      [|destruct (Ascii.eqb c "/"); [|now intros [= <- <-]]];
      intros H; apply IH in H; simpl; lia.
  - destruct (Ascii.eqb c "*"); [discriminate|].
    destruct (Ascii.eqb c "/"); [discriminate|]. now intros [= <- <-].
Qed.

Lemma multiplicativeExpression_agree (s : string) :
  (String.length s <= n)%nat ->
  multiplicativeExpression e1 s = multiplicativeExpression e2 s.
Proof.
  intros Hs. unfold multiplicativeExpression.
  rewrite <- (unaryExpression_agree s Hs).
  destruct (unaryExpression e1 s) as [[v r]|] eqn:Hu; [|reflexivity].
  apply unaryExpression_length in Hu; [|exact Hs].
  apply multiplicativeRest_agree; lia.
Qed.

Lemma multiplicativeExpression_length (s : string) (v : number)
    (r' : string) :
  (String.length s <= n)%nat ->
  multiplicativeExpression e1 s = Some (v, r') ->
  (String.length r' <= String.length s)%nat.
Proof.
  intros Hs. unfold multiplicativeExpression.
  destruct (unaryExpression e1 s) as [[w r]|] eqn:Hu; [|discriminate].
  apply unaryExpression_length in Hu; [|exact Hs].
  intros H. apply multiplicativeRest_length in H; lia.
Qed.

Lemma additiveRest_agree (k1 k2 : nat) (acc : number) (s : string) :
  (String.length s <= n)%nat ->
  (String.length s <= k1)%nat -> (String.length s <= k2)%nat ->
  additiveRest e1 k1 acc s = additiveRest e2 k2 acc s.
Proof.
  revert k2 acc s.
  induction k1 as [|k1 IH]; intros k2 acc s Hn H1 H2.
  - destruct s; [|simpl in H1; lia]. now destruct k2.
  - destruct s as [|c r]; [now destruct k2|].
    destruct k2 as [|k2]; [simpl in H2; lia|].
    simpl in Hn, H1, H2. cbn [additiveRest].
    rewrite <- (multiplicativeExpression_agree r) by lia.
    destruct (multiplicativeExpression e1 r) as [[v r']|] eqn:Hu;
      [|reflexivity].
    apply multiplicativeExpression_length in Hu; [|lia].
    rewrite !(IH k2) by lia. reflexivity.
Qed.

Lemma additiveRest_length (k : nat) (acc v : number) (s r' : string) :
  (String.length s <= n)%nat ->
  additiveRest e1 k acc s = Some (v, r') ->
  (String.length r' <= String.length s)%nat.
Proof.
  revert acc s.
  induction k as [|k IH]; intros acc s Hn; [now intros [= <- <-]|].
  destruct s as [|c r]; [now intros [= <- <-]|].
  simpl in Hn. cbn [additiveRest].
  destruct (multiplicativeExpression e1 r) as [[w t]|] eqn:Hu.
  - apply multiplicativeExpression_length in Hu; [|lia].
    destruct (Ascii.eqb c "+");
      [|destruct (Ascii.eqb c "-"); [|now intros [= <- <-]]];
      intros H; apply IH in H; simpl; lia.
  - destruct (Ascii.eqb c "+"); [discriminate|].
    destruct (Ascii.eqb c "-"); [discriminate|]. now intros [= <- <-].
Qed.

Lemma additive_agree (s : string) :
  (String.length s <= n)%nat -> additive e1 s = additive e2 s.
Proof.
  intros Hs. unfold additive.
  rewrite <- (multiplicativeExpression_agree s Hs).
  destruct (multiplicativeExpression e1 s) as [[v r]|] eqn:Hu;
    [|reflexivity].
  apply multiplicativeExpression_length in Hu; [|exact Hs].
  apply additiveRest_agree; lia.
Qed.

Lemma additive_length (s : string) (v : number) (r' : string) :
  (String.length s <= n)%nat ->
  additive e1 s = Some (v, r') ->
  (String.length r' <= String.length s)%nat.
Proof.
  intros Hs. unfold additive.
  destruct (multiplicativeExpression e1 s) as [[w r]|] eqn:Hu;
    [|discriminate].
  apply multiplicativeExpression_length in Hu; [|exact Hs].
  intros H. apply additiveRest_length in H; lia.
Qed.

End ParserFuel.

Lemma additiveExpression_stable (fuel : nat) :
  forall s : string,
    (String.length s < fuel)%nat ->
    (forall more, additiveExpression (fuel + more) s = additiveExpression fuel s)
    /\ (forall v r, additiveExpression fuel s = Some (v, r) ->
                    (String.length r <= String.length s)%nat).
Proof.
  induction fuel as [|fuel IH]; intros s Hs; [lia|].
  split.
  - intros more. simpl. symmetry.
    apply additive_agree with (n := String.length s); [| |lia].
    + intros r Hr. symmetry. apply IH. lia.
    + intros r v r' Hr. apply IH. lia.
  - intros v r. simpl.
    apply additive_length
      with (n := String.length s) (e1 := additiveExpression fuel); [|lia].
    intros t w t' Ht. apply IH. lia.
Qed.

(** The fuel that [evalFunction] gives the parser is enough: more fuel
    gives the same answer. *)
Lemma evalFunction_fuel (expression : string) (more : nat) :
  additiveExpression (S (String.length expression) + more) expression
  = additiveExpression (S (String.length expression)) expression.
Proof. apply additiveExpression_stable. lia. Qed.

(** ** The evaluator *)

Lemma filter_app (q : ascii -> bool) (s t : string) :
  JsString.filter q (s ++ t) = JsString.filter q s ++ JsString.filter q t.
Proof.
  induction s as [|c s IH]; simpl; [reflexivity|].
  destruct (q c); simpl; now rewrite IH.
Qed.

Lemma replaceAll_app (c d : ascii) (s t : string) :
  replaceAll c d (s ++ t) = replaceAll c d s ++ replaceAll c d t.
Proof. induction s as [|x s IH]; simpl; [reflexivity|]. now rewrite IH. Qed.

Lemma sanitize_app (s t : string) : sanitize (s ++ t) = sanitize s ++ sanitize t.
Proof. unfold sanitize. now rewrite filter_app, !replaceAll_app. Qed.

Lemma hasRun2_infix (q : ascii -> bool) (x y : ascii) (s t : string) :
  q x = true -> q y = true ->
  hasRun2 q (s ++ String x (String y t)) = true.
Proof.
  intros Hx Hy.
  induction s as [|c s IH].
  - simpl. now rewrite Hx, Hy.
  - destruct s as [|d s].
    + change (q c && q x || hasRun2 q (String x (String y t)) = true).
      change (hasRun2 q (String x (String y t)) = true) in IH.
      rewrite IH. apply orb_true_r.
    + change (q c && q d || hasRun2 q (String d s ++ String x (String y t))
              = true).
      rewrite IH. apply orb_true_r.
Qed.

Lemma minus_run_invalid (expression : string) :
  hasRun2 (oneOf "-") expression = true ->
  isValidExpression expression = false.
Proof.
  intros H. unfold isValidExpression.
  destruct (String.eqb expression ""); [reflexivity|].
  destruct (negb _); [reflexivity|].
  rewrite H, orb_true_r. reflexivity.
Qed.

(** A Number that [safeEvaluate] returns is finite. *)
Lemma safeEvaluate_finite (expression : string) (v : number) :
  safeEvaluate expression = Value v -> isFinite v = true.
Proof.
  unfold safeEvaluate.
  destruct (negb (isValidExpression _)); [discriminate|].
  destruct (evalFunction _) as [r|]; [|discriminate].
  destruct (isFinite r) eqn:Hr; simpl; [|discriminate].
  destruct (ltb _ _); intros [= <-]; [reflexivity | exact Hr].
Qed.

Lemma div_by_zero_not_finite (x : number) (s : bool) :
  isFinite (div x (S754_zero s)) = false.
Proof. now destruct x. Qed.

(** C2: the evaluator takes an operator directly followed by a unary
    minus, and turns down every text with two [-] in a row:
    [safeEvaluate "5*-3"] is the Number -15, [safeEvaluate "3--2"] is
    "Error", and so is [safeEvaluate] of any text that contains [--]. *)
Theorem unary_minus_accepted_minus_run_rejected :
  safeEvaluate "5*-3" = Value (ofZ (-15))
  /\ safeEvaluate "3--2" = Error
  /\ forall before after : string,
       safeEvaluate (before ++ "--" ++ after) = Error.
Proof.
  split; [reflexivity|]. split; [reflexivity|].
  intros before after. unfold safeEvaluate.
  rewrite minus_run_invalid; [reflexivity|].
  rewrite !sanitize_app.
  change (sanitize "--") with "--".
  now apply hasRun2_infix.
Qed.

(** C6: [safeEvaluate] answers "Error" whenever the arithmetic value of
    the text is infinite or NaN, so every Number it returns is finite; a
    division by zero is never finite, and [safeEvaluate "5/0"] is
    "Error". *)
Theorem non_finite_result_is_error :
  (forall (expression : string) (result : number),
      evalFunction (sanitize expression) = Returned result ->
      isFinite result = false ->
      safeEvaluate expression = Error)
  /\ (forall (expression : string) (v : number),
         safeEvaluate expression = Value v -> isFinite v = true)
  /\ (forall (x : number) (s : bool), isFinite (div x (S754_zero s)) = false)
  /\ safeEvaluate "5/0" = Error.
Proof.
  split; [|split; [|split]].
  - intros expression result Heval Hfin. unfold safeEvaluate.
    destruct (negb (isValidExpression _)); [reflexivity|].
    now rewrite Heval, Hfin.
  - exact safeEvaluate_finite.
  - exact div_by_zero_not_finite.
  - reflexivity.
Qed.

Lemma non_finite_result_is_error_witness :
  evalFunction (sanitize "5/0") = Returned (S754_infinity false)
  /\ isFinite (S754_infinity false) = false
  /\ safeEvaluate "5/0" = Error.
Proof.
  split; [reflexivity|]. split; [reflexivity|].
  apply (proj1 non_finite_result_is_error "5/0" (S754_infinity false));
    reflexivity.
Defined.

(** C9: when a valid expression has a finite value whose magnitude is
    below 1e-15, [safeEvaluate] returns 0 and not that value. *)
Theorem tiny_result_snaps_to_zero (expression : string) (result : number) :
  isValidExpression (sanitize expression) = true ->
  evalFunction (sanitize expression) = Returned result ->
  isFinite result = true ->
  ltb (abs result) MINIMUM_VALUE_THRESHOLD = true ->
  safeEvaluate expression = Value (S754_zero false).
Proof.
  intros Hvalid Heval Hfin Hlt. unfold safeEvaluate.
  now rewrite Hvalid, Heval, Hfin, Hlt.
Qed.

Lemma tiny_result_snaps_to_zero_witness :
  safeEvaluate "1/3000000000000000-0" = Value (S754_zero false)
  /\ evalFunction "1/3000000000000000-0"
     = Returned (S754_finite false 6760803201217223 (-104)).
Proof.
  split; [|reflexivity].
  apply (tiny_result_snaps_to_zero "1/3000000000000000-0"
           (S754_finite false 6760803201217223 (-104))); reflexivity.
Defined.

(** ** The builder: dispatch of [handleInput] *)

Ltac each_member H :=
  simpl in H; repeat (destruct H as [<-|H]; [|]); try contradiction.

Lemma handleInput_digit (this : Calculator) (digit : string) :
  In digit digits ->
  handleInput this digit
  = handleNumberInput this digit (sliceLast (currentExpression this)).
Proof. intros H. each_member H; reflexivity. Qed.

Lemma handleInput_operator (this : Calculator) (input : string) :
  In input operators ->
  handleInput this input
  = handleOperatorInput this input (sliceLast (currentExpression this)).
Proof. intros H. each_member H; reflexivity. Qed.

Lemma normalizeOperator_operator (input : string) :
  In input operators -> In (normalizeOperator input) ["+"; "-"; "*"; "/"].
Proof. intros H. each_member H; simpl; auto 6. Qed.

Lemma isOperator_nonempty (this : Calculator) :
  isOperator (sliceLast (currentExpression this)) = true ->
  String.eqb (currentExpression this) "" = false.
Proof.
  destruct (currentExpression this); [discriminate | reflexivity].
Qed.

(** C1, amended: an input that a handler turns down leaves the expression
    as it was; it leaves [lastResult] as it was too, except that a [)]
    that is turned down still sets [lastResult] to [null]. *)
Theorem rejected_input_keeps_expression (this : Calculator) (input : string) :
  rejects this input = true ->
  currentExpression (handleInput this input) = currentExpression this
  /\ lastResult (handleInput this input)
     = if String.eqb input ")" then None else lastResult this.
Proof.
  unfold rejects.
  destruct (String.eqb input ".") eqn:Hdot.
  - apply String.eqb_eq in Hdot. subst input. intros H.
    change (handleInput this ".")
      with (handleDecimalInput this (sliceLast (currentExpression this))).
    unfold handleDecimalInput. rewrite H. now split.
  - destruct (isOperator input) eqn:Hop.
    + intros H. apply andb_true_iff in H as [Hempty Hminus].
      apply existsb_eqb_In in Hop.
      rewrite (handleInput_operator _ _ Hop).
      unfold handleOperatorInput. rewrite Hempty, Hminus. simpl.
      split; [reflexivity|].
      each_member Hop; reflexivity.
    + destruct (String.eqb input ")") eqn:Hclose; [|discriminate].
      apply String.eqb_eq in Hclose. subst input. intros H.
      change (handleInput this ")")
        with (handleParenthesesInput this ")"
                (sliceLast (currentExpression this))).
      unfold handleParenthesesInput. simpl.
      apply negb_true_iff in H. rewrite H. now split.
Qed.

Lemma rejected_input_keeps_expression_witness :
  rejects initial "*" = true /\ handleInput initial "*" = initial.
Proof.
  split; [reflexivity|].
  destruct (rejected_input_keeps_expression initial "*" eq_refl) as [He Hr].
  destruct (handleInput initial "*") as [e r]. simpl in He, Hr.
  now rewrite He, Hr.
Defined.

(** C1 as stated fails: after the inputs 5 and equal the calculator holds
    the expression "5" and the result 5; a [)] is turned down there, and
    the state changes, because [lastResult] is set to [null]. *)
Lemma rejected_close_paren_changes_state :
  isToken ")" = true
  /\ rejects (handleInputs initial ["5"; "equal"]) ")" = true
  /\ lastResult (handleInputs initial ["5"; "equal"]) = Some (ofZ 5)
  /\ handleInput (handleInputs initial ["5"; "equal"]) ")"
     <> handleInputs initial ["5"; "equal"].
Proof.
  split; [reflexivity|].
  split; [vm_compute; reflexivity|].
  split; [vm_compute; reflexivity|].
  intros H. apply (f_equal lastResult) in H.
  vm_compute in H. discriminate H.
Qed.

(** C3: on the empty expression every operator input, [-] among them,
    leaves the state as it is; the expression does not become "-". *)
Theorem leading_operator_is_dropped :
  currentExpression (handleInput initial "-") = ""
  /\ Forall (fun input => handleInput initial input = initial) operators.
Proof. split; [reflexivity|]. repeat constructor. Qed.

(** C4, amended: when the expression ends in an operator, an operator
    input replaces that operator with the new one (the multiplication
    and division signs as [*] and [/]) and leaves [lastResult] alone; so
    the inputs 5, [*], [-], 3 give the expression "5-3". *)
Theorem operator_replaces_trailing_operator :
  (forall (this : Calculator) (input : string),
      isOperator (sliceLast (currentExpression this)) = true ->
      isOperator input = true ->
      handleInput this input
      = {| currentExpression :=
             sliceInit (currentExpression this) ++ normalizeOperator input;
           lastResult := lastResult this |})
  /\ currentExpression (handleInputs initial ["5"; "*"; "-"; "3"]) = "5-3".
Proof.
  split; [|reflexivity].
  intros this input Hlast Hop.
  apply existsb_eqb_In in Hop.
  rewrite (handleInput_operator _ _ Hop).
  unfold handleOperatorInput.
  now rewrite (isOperator_nonempty _ Hlast), Hlast.
Qed.

Lemma operator_replaces_trailing_operator_witness :
  handleInput {| currentExpression := "5*"; lastResult := None |} "-"
  = {| currentExpression := "5-"; lastResult := None |}.
Proof.
  apply (proj1 operator_replaces_trailing_operator
           {| currentExpression := "5*"; lastResult := None |} "-");
    reflexivity.
Defined.

(** C4 as stated fails: the inputs 5, [*], [-], 3 do not give "5*-3". *)
Lemma negated_operand_is_not_built :
  currentExpression (handleInputs initial ["5"; "*"; "-"; "3"]) <> "5*-3".
Proof. discriminate. Qed.

(** C8: when equal succeeds with the value [v], the expression becomes
    [v.toString()] and [lastResult] becomes [v]; a digit input that
    follows, the last character being neither an operator nor the decimal
    point, makes the expression that digit and [lastResult] [null]. *)
Theorem equal_then_digit_starts_afresh (this : Calculator) (v : number) :
  currentExpression this <> "" ->
  safeEvaluate (currentExpression this) = Value v ->
  let after := handleInput this "equal" in
  currentExpression after = toString v
  /\ lastResult after = Some v
  /\ forall digit : string,
       In digit digits ->
       isOperator (sliceLast (currentExpression after)) = false ->
       sliceLast (currentExpression after) <> "." ->
       handleInput after digit
       = {| currentExpression := digit; lastResult := None |}.
Proof.
  intros Hne Heval.
  change (handleInput this "equal") with (calculateResult this).
  unfold calculateResult.
  apply String.eqb_neq in Hne. rewrite Hne, Heval. cbv zeta.
  split; [reflexivity|]. split; [reflexivity|].
  intros digit Hd Hop Hdot.
  rewrite (handleInput_digit _ _ Hd).
  unfold handleNumberInput.
  cbv beta iota delta [lastResult currentExpression] in *.
  apply String.eqb_neq in Hdot. now rewrite Hop, Hdot.
Qed.

Lemma equal_then_digit_starts_afresh_witness :
  handleInput
    (handleInput {| currentExpression := "5*-3"; lastResult := None |}
       "equal") "7"
  = {| currentExpression := "7"; lastResult := None |}.
Proof.
  refine (proj2 (proj2 (equal_then_digit_starts_afresh
            {| currentExpression := "5*-3"; lastResult := None |}
            (ofZ (-15)) _ _)) "7" _ _ _).
  - discriminate.
  - vm_compute. reflexivity.
  - simpl. auto 10.
  - vm_compute. reflexivity.
  - vm_compute. discriminate.
Defined.

(** ** The builder: one input as an edit of the expression *)

Lemma handleInput_edit (this : Calculator) (input : string) :
  isToken input = true ->
  edit (currentExpression this) (currentExpression (handleInput this input)).
Proof.
  intros H. apply existsb_eqb_In in H.
  apply in_app_or in H as [Hd|H]; [|apply in_app_or in H as [Hop|H]].
  - rewrite (handleInput_digit _ _ Hd). unfold handleNumberInput.
    destruct (lastResult this); [destruct (_ && _)|]; simpl;
      solve [ now apply edit_fresh
            | apply edit_append, in_or_app; now left ].
  - rewrite (handleInput_operator _ _ Hop). unfold handleOperatorInput.
    pose proof (normalizeOperator_operator _ Hop) as Hn.
    destruct (_ && _); [apply edit_keep|].
    destruct (isOperator _); [now apply edit_replace|].
    destruct (negb _); [|apply edit_keep].
    apply edit_append, in_or_app. right.
    simpl in Hn |- *. tauto.
  - each_member H.
    + change (handleInput this ".")
        with (handleDecimalInput this (sliceLast (currentExpression this))).
      unfold handleDecimalInput.
      destruct (negb (canAddDecimal this)); [apply edit_keep|].
      destruct (_ || _); [apply edit_append; simpl; tauto|].
      destruct (_ && _); [apply edit_append; simpl; tauto | apply edit_keep].
    + change (handleInput this "(")
        with (handleParenthesesInput this "("
                (sliceLast (currentExpression this))).
      unfold handleParenthesesInput. simpl.
      destruct (_ && _); [rewrite append_assoc|];
        apply edit_append; simpl; tauto.
    + change (handleInput this ")")
        with (handleParenthesesInput this ")"
                (sliceLast (currentExpression this))).
      unfold handleParenthesesInput. simpl.
      destruct (_ && _) eqn:Hok; simpl; [|apply edit_keep].
      apply andb_true_iff in Hok as [Hok _].
      apply andb_true_iff in Hok as [Hok _].
      apply edit_close. now apply Nat.ltb_lt.
    + apply edit_clear.
    + change (handleInput this "backspace") with (handleBackspace this).
      unfold handleBackspace.
      destruct (lastResult this); [destruct (String.eqb _ _)|];
        apply edit_backspace.
    + change (handleInput this "equal") with (calculateResult this).
      unfold calculateResult.
      destruct (String.eqb _ ""); [apply edit_keep|].
      destruct (safeEvaluate _) as [v|] eqn:Hv; simpl;
        [|apply edit_clear].
      apply edit_result. exact (safeEvaluate_finite _ _ Hv).
Qed.

Lemma handleInputs_invariant (P : Calculator -> Prop) (ok : string -> Prop) :
  (forall this input, ok input -> P this -> P (handleInput this input)) ->
  forall inputs this,
    Forall ok inputs -> P this -> P (handleInputs this inputs).
Proof.
  intros Hstep inputs.
  induction inputs as [|input inputs IH]; intros this Hok HP; [exact HP|].
  inversion Hok as [|? ? Hin Hrest]; subst.
  simpl. apply IH; [exact Hrest|]. now apply Hstep.
Qed.

(** ** The alphabet of the expression *)

Lemma numberChar_isLiveChar (c : ascii) :
  isNumberChar c = true -> isLiveChar c = true.
Proof.
  destruct c as [[|] [|] [|] [|] [|] [|] [|] [|]];
    intros H; solve [reflexivity | discriminate H].
Qed.

Lemma edit_live (e e' : string) :
  edit e e' ->
  JsString.forallb isLiveChar e = true ->
  JsString.forallb isLiveChar e' = true.
Proof.
  intros Hedit He.
  destruct Hedit as [| | |v Hv|digit Hd|t Ht|t Ht|Hlt].
  - exact He.
  - reflexivity.
  - now apply forallb_sliceInit.
  - eapply forallb_weaken; [apply numberChar_isLiveChar|].
    now apply toString_chars.
  - each_member Hd; reflexivity.
  - rewrite forallb_app, He. unfold pieces in Ht.
    each_member Ht; reflexivity.
  - rewrite forallb_app, forallb_sliceInit by exact He.
    each_member Ht; reflexivity.
  - now rewrite forallb_app, He.
Qed.

(** Whatever the input tokens, the expression holds only characters of
    the alphabet and of the texts of results. *)
Lemma handleInputs_live (inputs : list string) :
  Forall (fun input => isToken input = true) inputs ->
  JsString.forallb isLiveChar
    (currentExpression (handleInputs initial inputs)) = true.
Proof.
  intros Hok.
  apply (handleInputs_invariant
           (fun this =>
              JsString.forallb isLiveChar (currentExpression this) = true)
           (fun input => isToken input = true));
    [|exact Hok|reflexivity].
  intros this input Htoken. apply edit_live. now apply handleInput_edit.
Qed.

(** C5: the inputs 1, [/], 1, 0, 0, 0, 0, 0, 0, 0 and equal leave the
    expression "1e-7": [calculateResult] stores the text of the result,
    and [e] is not in the alphabet.  The validator of the calculator
    turns that text down itself: a further equal empties the expression
    and loses the result, where the result of 8, equal is still there
    after a further equal. *)
Theorem result_text_leaves_alphabet :
  Forall (fun input => isToken input = true)
    ["1"; "/"; "1"; "0"; "0"; "0"; "0"; "0"; "0"; "0"; "equal"]
  /\ currentExpression
       (handleInputs initial
          ["1"; "/"; "1"; "0"; "0"; "0"; "0"; "0"; "0"; "0"; "equal"])
     = "1e-7"
  /\ JsString.forallb isAlphabetChar
       (currentExpression
          (handleInputs initial
             ["1"; "/"; "1"; "0"; "0"; "0"; "0"; "0"; "0"; "0"; "equal"]))
     = false
  /\ safeEvaluate "1e-7" = Error
  /\ handleInputs initial
       ["1"; "/"; "1"; "0"; "0"; "0"; "0"; "0"; "0"; "0"; "equal"; "equal"]
     = {| currentExpression := ""; lastResult := None |}
  /\ handleInputs initial ["8"; "equal"; "equal"]
     = {| currentExpression := "8"; lastResult := Some (ofZ 8) |}.
Proof.
  split; [repeat constructor|].
  repeat split; vm_compute; reflexivity.
Qed.

(** ** Parentheses *)

Lemma openDepth_app (s t : string) (d : nat) :
  openDepth (s ++ t) d
  = match openDepth s d with
    | Some d' => openDepth t d'
    | None => None
    end.
Proof.
  revert d. induction s as [|c s IH]; intros d; simpl; [reflexivity|].
  destruct (Ascii.eqb c "("); [apply IH|].
  destruct (Ascii.eqb c ")"); [|apply IH].
  destruct d; [reflexivity | apply IH].
Qed.

Lemma openDepth_count (s : string) (d d' : nat) :
  openDepth s d = Some d' ->
  (countChar "(" s + d = countChar ")" s + d')%nat.
Proof.
  revert d. induction s as [|c s IH]; intros d; simpl.
  - intros [= <-]. reflexivity.
  - destruct (Ascii.eqb c "(") eqn:Hopen.
    + apply Ascii.eqb_eq in Hopen. subst c. simpl.
      intros H. apply IH in H. lia.
    + destruct (Ascii.eqb c ")").
      * destruct d as [|d]; [discriminate|].
        intros H. apply IH in H. lia.
      * intros H. apply IH in H. lia.
Qed.

Lemma openDepth_sliceInit (s : string) (d d' : nat) :
  openDepth s d = Some d' -> exists d'', openDepth (sliceInit s) d = Some d''.
Proof.
  intros H. pose proof (slice_split s) as Hs.
  rewrite Hs, openDepth_app in H.
  destruct (openDepth (sliceInit s) d) as [x|]; [now exists x | discriminate].
Qed.

Lemma numberChar_not_paren (c : ascii) :
  isNumberChar c = true -> Ascii.eqb c "(" = false /\ Ascii.eqb c ")" = false.
Proof.
  destruct c as [[|] [|] [|] [|] [|] [|] [|] [|]];
    intros H; solve [now split | discriminate H].
Qed.

Lemma openDepth_number (s : string) (d : nat) :
  JsString.forallb isNumberChar s = true -> openDepth s d = Some d.
Proof.
  induction s as [|c s IH]; simpl; [reflexivity|].
  intros H. apply andb_true_iff in H as [Hc Hs].
  destruct (numberChar_not_paren _ Hc) as [-> ->]. now apply IH.
Qed.

Lemma edit_balanced (e e' : string) :
  edit e e' ->
  (exists d, openDepth e 0 = Some d) ->
  exists d', openDepth e' 0 = Some d'.
Proof.
  intros Hedit [d Hd].
  destruct Hedit as [| | |v Hv|digit Hin|t Ht|t Ht|Hlt].
  - now exists d.
  - now exists O.
  - now apply openDepth_sliceInit with d.
  - exists O. now apply openDepth_number, toString_chars.
  - exists O. each_member Hin; reflexivity.
  - rewrite openDepth_app, Hd. unfold pieces in Ht.
    each_member Ht; simpl; eauto.
  - destruct (openDepth_sliceInit _ _ _ Hd) as [x Hx].
    rewrite openDepth_app, Hx.
    each_member Ht; simpl; eauto.
  - rewrite openDepth_app, Hd.
    apply openDepth_count in Hd.
    destruct d as [|d]; [lia|]. simpl. eauto.
Qed.

(** C7: in every state that a sequence of input tokens reaches from the
    initial state, the expression has at most as many [)] as [(]. *)
Theorem close_parens_never_exceed_open (inputs : list string) :
  Forall (fun input => isToken input = true) inputs ->
  (countChar ")" (currentExpression (handleInputs initial inputs))
   <= countChar "(" (currentExpression (handleInputs initial inputs)))%nat.
Proof.
  intros Hok.
  assert (H : exists d,
             openDepth (currentExpression (handleInputs initial inputs)) 0
             = Some d).
  { apply (handleInputs_invariant
             (fun this => exists d, openDepth (currentExpression this) 0 = Some d)
             (fun input => isToken input = true));
      [|exact Hok|now exists O].
    intros this input Htoken. apply edit_balanced.
    now apply handleInput_edit. }
  destruct H as [d Hd]. apply openDepth_count in Hd. lia.
Qed.

Lemma close_parens_never_exceed_open_witness :
  (countChar ")" (currentExpression
                    (handleInputs initial ["("; "5"; ")"; ")"; "backspace"]))
   <= countChar "(" (currentExpression
                       (handleInputs initial ["("; "5"; ")"; ")"; "backspace"])))%nat.
Proof.
  apply (close_parens_never_exceed_open ["("; "5"; ")"; ")"; "backspace"]).
  repeat constructor.
Defined.

(** ** The last result *)

Lemma handleInput_finiteResult (this : Calculator) (input : string) :
  finiteResult this -> finiteResult (handleInput this input).
Proof.
  unfold finiteResult, handleInput, clearCalculator, handleBackspace,
    calculateResult, handleDecimalInput, handleNumberInput,
    handleOperatorInput, handleParenthesesInput.
  intros H.
  destruct (lastResult this) as [r|] eqn:Hr;
    destruct (safeEvaluate (currentExpression this)) as [v|] eqn:Hv;
    try (apply safeEvaluate_finite in Hv);
    repeat match goal with
           | |- context [if ?b then _ else _] => destruct b
           end;
    simpl; rewrite ?Hr; auto.
Qed.

(** C10: from the initial state, after any sequence of inputs,
    [lastResult] is [null] or a finite Number: never NaN and never an
    infinity.  (That it is never the "Error" marker is in its type.) *)
Theorem lastResult_absent_or_finite (inputs : list string) :
  match lastResult (handleInputs initial inputs) with
  | Some v => isFinite v = true
  | None => True
  end.
Proof.
  apply (handleInputs_invariant finiteResult (fun _ => True)).
  - intros this input _. apply handleInput_finiteResult.
  - now apply Forall_forall.
  - exact I.
Qed.

(** ** More on the evaluator *)

Lemma sanitize_space (c : ascii) (s : string) :
  isSpace c = true -> sanitize (String c s) = sanitize s.
Proof. intros H. unfold sanitize. simpl. now rewrite H. Qed.

(** X1: [safeEvaluate] does not see white space, and reads the
    multiplication sign as [*] and the division sign as [/], wherever
    they stand in the text. *)
Theorem safeEvaluate_normalises :
  (forall (a b : string) (c : ascii),
      isSpace c = true ->
      safeEvaluate (a ++ String c b) = safeEvaluate (a ++ b))
  /\ (forall a b : string,
         safeEvaluate (a ++ String times b) = safeEvaluate (a ++ String "*" b))
  /\ (forall a b : string,
         safeEvaluate (a ++ String obelus b) = safeEvaluate (a ++ String "/" b)).
Proof.
  split; [|split].
  - intros a b c Hc. unfold safeEvaluate.
    now rewrite !sanitize_app, sanitize_space.
  - intros a b. unfold safeEvaluate. now rewrite !sanitize_app.
  - intros a b. unfold safeEvaluate. now rewrite !sanitize_app.
Qed.

Lemma safeEvaluate_normalises_witness :
  safeEvaluate "(5 + 3) * 2" = safeEvaluate "(5 +3) * 2".
Proof.
  apply (proj1 safeEvaluate_normalises "(5 +" "3) * 2" " "%char).
  vm_compute. reflexivity.
Defined.

Lemma safeEvaluate_valid (expression : string) (v : number) :
  safeEvaluate expression = Value v ->
  isValidExpression (sanitize expression) = true.
Proof.
  unfold safeEvaluate.
  destruct (isValidExpression (sanitize expression)); [reflexivity|].
  discriminate.
Qed.

Lemma isValidExpression_chars (expression : string) :
  isValidExpression expression = true ->
  JsString.forallb isExpressionChar expression = true.
Proof.
  unfold isValidExpression.
  destruct (String.eqb expression ""); [discriminate|].
  destruct (JsString.forallb isExpressionChar expression);
    [reflexivity | discriminate].
Qed.

Lemma sanitize_chars (s : string) :
  JsString.forallb isExpressionChar (sanitize s) = true ->
  JsString.forallb isEvaluableChar s = true.
Proof.
  induction s as [|c s IH]; [reflexivity|].
  unfold sanitize in *. cbn [JsString.filter JsString.forallb].
  unfold isEvaluableChar at 1.
  destruct (isSpace c) eqn:Hs; cbn [negb].
  - rewrite orb_true_r. exact IH.
  - cbn [replaceAll JsString.forallb].
    intros H. apply andb_true_iff in H as [Hc H].
    rewrite (IH H), andb_true_r.
    destruct (Ascii.eqb c times) eqn:Ht; [now rewrite orb_true_r|].
    destruct (Ascii.eqb c obelus) eqn:Ho; [now rewrite orb_true_r|].
    unfold isExpressionChar in Hc. rewrite Hs, orb_false_r in Hc.
    unfold isAlphabetChar. now rewrite Hc.
Qed.

(** X2: [safeEvaluate] fails closed on the alphabet: a text that
    evaluates to a Number holds only characters of the alphabet, white
    space and the multiplication and division signs. *)
Theorem evaluated_text_alphabet (expression : string) (v : number) :
  safeEvaluate expression = Value v ->
  JsString.forallb isEvaluableChar expression = true.
Proof.
  intros H. apply sanitize_chars, isValidExpression_chars.
  exact (safeEvaluate_valid _ _ H).
Qed.

Lemma evaluated_text_alphabet_witness :
  JsString.forallb isEvaluableChar "2 * (3 + 4)" = true.
Proof.
  apply (evaluated_text_alphabet "2 * (3 + 4)" (ofZ 14)).
  vm_compute. reflexivity.
Defined.

(** X3: a Number that [safeEvaluate] returns is never negative zero, and
    if its magnitude is below 1e-15 it is the zero [+0]. *)
Theorem returned_value_not_tiny (expression : string) (v : number) :
  safeEvaluate expression = Value v ->
  v <> S754_zero true
  /\ (ltb (abs v) MINIMUM_VALUE_THRESHOLD = true -> v = S754_zero false).
Proof.
  unfold safeEvaluate.
  destruct (negb (isValidExpression _)); [discriminate|].
  destruct (evalFunction _) as [r|]; [|discriminate].
  destruct (negb (isFinite r)); [discriminate|].
  destruct (ltb (abs r) MINIMUM_VALUE_THRESHOLD) eqn:Hlt; intros [= <-].
  - split; [discriminate | reflexivity].
  - split; [|congruence].
    intros ->. vm_compute in Hlt. discriminate Hlt.
Qed.

Lemma returned_value_not_tiny_witness :
  evalFunction "0*-1" = Returned (S754_zero true)
  /\ S754_zero false <> S754_zero true.
Proof.
  split; [vm_compute; reflexivity|].
  apply (proj1 (returned_value_not_tiny "0*-1" (S754_zero false)
                  ltac:(vm_compute; reflexivity))).
Defined.

(** ** The parenthesis check *)

Lemma eqb_char (c d : ascii) :
  String.eqb (String c "") (String d "") = Ascii.eqb c d.
Proof. simpl. now destruct (Ascii.eqb c d). Qed.

Lemma validateParenthesesFrom_spec (expression : string) :
  forall (d : nat) (lastChar : string),
    validateParenthesesFrom expression (Z.of_nat d) lastChar
    = match openDepth expression d with
      | Some O => true
      | _ => false
      end
      && negb (hasAdjacent "(" ")" expression)
      && negb (String.eqb lastChar "("
               && startsWith (fun c => Ascii.eqb c ")") expression).
Proof.
  induction expression as [|c r IH]; intros d lastChar.
  - simpl. rewrite andb_false_r, !andb_true_r.
    destruct d; [reflexivity|].
    apply Z.eqb_neq. lia.
  - cbn [validateParenthesesFrom openDepth startsWith].
    rewrite (eqb_char c "("), (eqb_char c ")").
    destruct (Ascii.eqb c "(") eqn:Hopen.
    + apply Ascii.eqb_eq in Hopen. subst c.
      change (Ascii.eqb "(" ")") with false. cbv iota.
      replace (Z.of_nat d + 1) with (Z.of_nat (S d)) by lia.
      rewrite IH, andb_false_r, andb_true_r.
      change (String.eqb "(" "(") with true.
      destruct r as [|x r]; [reflexivity|].
      cbn [hasAdjacent startsWith].
      change (Ascii.eqb "(" "(") with true.
      rewrite negb_orb, !andb_true_l, <- !andb_assoc. f_equal.
      apply andb_comm.
    + destruct (Ascii.eqb c ")") eqn:Hclose.
      * apply Ascii.eqb_eq in Hclose. subst c.
        destruct d as [|d].
        { reflexivity. }
        replace (Z.of_nat (S d) - 1) with (Z.of_nat d) by lia.
        assert (Hpos : (Z.of_nat d <? 0) = false) by (apply Z.ltb_ge; lia).
        rewrite Hpos, andb_true_r.
        destruct (String.eqb lastChar "(");
          [now rewrite andb_false_r|].
        rewrite IH, andb_true_r.
        change (String.eqb ")" "(") with false.
        rewrite andb_true_r.
        destruct r; reflexivity.
      * rewrite IH, andb_false_r, andb_true_r.
        rewrite (eqb_char c "("), Hopen, andb_true_r.
        destruct r as [|x r]; [reflexivity|].
        cbn [hasAdjacent]. now rewrite Hopen.
Qed.

(** X4: [validateParentheses] accepts exactly the texts in which every
    [)] closes an earlier [(], every group is closed at the end, and no
    [)] directly follows a [(]. *)
Theorem validateParentheses_spec (expression : string) :
  validateParentheses expression = true
  <-> openDepth expression 0 = Some O
      /\ hasAdjacent "(" ")" expression = false.
Proof.
  unfold validateParentheses.
  pose proof (validateParenthesesFrom_spec expression O "") as Hspec.
  change (Z.of_nat 0) with 0 in Hspec. rewrite Hspec.
  change (String.eqb "" "(") with false.
  rewrite andb_true_r, andb_true_iff, negb_true_iff.
  destruct (openDepth expression 0) as [[|d]|]; split;
    intros [H1 H2]; try discriminate; now split.
Qed.

Lemma validateParentheses_spec_witness :
  validateParentheses "(1+(2))*3" = true
  /\ validateParentheses "(1+2))(" = false
  /\ validateParentheses "1+()" = false.
Proof.
  split; [|split; reflexivity].
  apply (proj2 (validateParentheses_spec "(1+(2))*3")).
  split; reflexivity.
Defined.

(** ** Equal on an expression that cannot be evaluated *)

Lemma calculateResult_error (this : Calculator) :
  currentExpression this <> "" ->
  isValidExpression (sanitize (currentExpression this)) = false ->
  handleInput this "equal" = cleared.
Proof.
  intros Hne Hbad.
  change (handleInput this "equal") with (calculateResult this).
  unfold calculateResult, safeEvaluate.
  apply String.eqb_neq in Hne. now rewrite Hne, Hbad.
Qed.

Lemma endsWith_snoc (p : ascii -> bool) (s : string) (c : ascii) :
  endsWith p (s ++ String c "") = p c.
Proof.
  induction s as [|d s IH]; [reflexivity|].
  simpl. rewrite IH. now destruct s.
Qed.

Lemma trailing_operator_invalid (expression : string) :
  endsWith (oneOf "+-*/") expression = true ->
  isValidExpression expression = false.
Proof.
  intros H. unfold isValidExpression.
  repeat match goal with
         | |- (if ?b then false else _) = false =>
             destruct b; [reflexivity|]
         end.
  discriminate.
Qed.

(** X5: when the expression ends in an operator, equal evaluates
    nothing: it empties the expression and sets [lastResult] to [null]. *)
Theorem equal_with_trailing_operator_clears (this : Calculator) :
  isOperator (sliceLast (currentExpression this)) = true ->
  handleInput this "equal" = cleared.
Proof.
  intros Hop.
  assert (Hne : currentExpression this <> "").
  { intros He. rewrite He in Hop. discriminate Hop. }
  apply calculateResult_error; [exact Hne|].
  apply trailing_operator_invalid.
  rewrite (slice_split (currentExpression this)), sanitize_app.
  apply existsb_eqb_In in Hop.
  each_member Hop; apply endsWith_snoc.
Qed.

Lemma equal_with_trailing_operator_clears_witness :
  handleInput {| currentExpression := "5+"; lastResult := None |} "equal"
  = cleared.
Proof.
  apply (equal_with_trailing_operator_clears
           {| currentExpression := "5+"; lastResult := None |}).
  reflexivity.
Defined.

Lemma countChar_sanitize (c : ascii) (s : string) :
  c = "("%char \/ c = ")"%char ->
  countChar c (sanitize s) = countChar c s.
Proof.
  intros Hc. unfold sanitize.
  induction s as [|x s IH]; [reflexivity|].
  cbn [JsString.filter countChar].
  destruct (isSpace x) eqn:Hs; cbn [negb].
  - rewrite IH.
    destruct (Ascii.eqb x c) eqn:Hx; [|reflexivity].
    apply Ascii.eqb_eq in Hx. subst x.
    destruct Hc as [-> | ->]; discriminate Hs.
  - cbn [replaceAll countChar]. rewrite IH. f_equal.
    destruct (Ascii.eqb x times) eqn:Ht.
    + apply Ascii.eqb_eq in Ht. subst x.
      destruct Hc as [-> | ->]; reflexivity.
    + destruct (Ascii.eqb x obelus) eqn:Ho; [|reflexivity].
      apply Ascii.eqb_eq in Ho. subst x.
      destruct Hc as [-> | ->]; reflexivity.
Qed.

(** X6: when the expression has not as many [)] as [(], equal evaluates
    nothing: it empties the expression and sets [lastResult] to [null]. *)
Theorem equal_with_open_group_clears (this : Calculator) :
  countChar "(" (currentExpression this)
  <> countChar ")" (currentExpression this) ->
  handleInput this "equal" = cleared.
Proof.
  intros Hcount.
  assert (Hne : currentExpression this <> "").
  { intros He. rewrite He in Hcount. now apply Hcount. }
  apply calculateResult_error; [exact Hne|].
  unfold isValidExpression.
  destruct (validateParentheses (sanitize (currentExpression this)))
    eqn:Hv.
  - apply validateParentheses_spec in Hv as [Hd _].
    apply openDepth_count in Hd.
    rewrite !countChar_sanitize in Hd by auto. lia.
  - repeat match goal with
           | |- (if ?b then false else _) = false =>
               lazymatch b with
               | negb false => fail
               | _ => destruct b; [reflexivity|]
               end
           end.
    reflexivity.
Qed.

Lemma equal_with_open_group_clears_witness :
  handleInput {| currentExpression := "2*(3+4"; lastResult := None |} "equal"
  = cleared.
Proof.
  apply (equal_with_open_group_clears
           {| currentExpression := "2*(3+4"; lastResult := None |}).
  discriminate.
Defined.

(** ** The builder: one input as a guarded edit *)

Lemma handleInput_guardedEdit (this : Calculator) (input : string) :
  isToken input = true ->
  guardedEdit (currentExpression this)
    (currentExpression (handleInput this input)).
Proof.
  intros H. apply existsb_eqb_In in H.
  apply in_app_or in H as [Hd|H]; [|apply in_app_or in H as [Hop|H]].
  - rewrite (handleInput_digit _ _ Hd). unfold handleNumberInput.
    destruct (lastResult this); [destruct (_ && _)|]; simpl;
      solve [now apply guarded_fresh | now apply guarded_digit].
  - rewrite (handleInput_operator _ _ Hop). unfold handleOperatorInput.
    pose proof (normalizeOperator_operator _ Hop) as Hn.
    destruct (_ && _); [apply guarded_keep|].
    destruct (isOperator _) eqn:Hlast; [now apply guarded_replace|].
    destruct (negb _); [|apply guarded_keep].
    now apply guarded_operator.
  - each_member H.
    + change (handleInput this ".")
        with (handleDecimalInput this (sliceLast (currentExpression this))).
      unfold handleDecimalInput.
      change (canAddDecimal this)
        with (negb (lastPartHasPoint (currentExpression this))).
      destruct (lastPartHasPoint (currentExpression this)) eqn:Hpoint;
        [apply guarded_keep|].
      cbn [negb].
      destruct (_ || _); [apply guarded_point; simpl; tauto|].
      destruct (_ && _); [apply guarded_point; simpl; tauto|].
      apply guarded_keep.
    + change (handleInput this "(")
        with (handleParenthesesInput this "("
                (sliceLast (currentExpression this))).
      unfold handleParenthesesInput. simpl.
      destruct (isOperator (sliceLast (currentExpression this))) eqn:Hlast.
      * rewrite andb_false_r. apply guarded_open.
      * destruct (_ && _); [|apply guarded_open].
        rewrite append_assoc. now apply guarded_times_open.
    + change (handleInput this ")")
        with (handleParenthesesInput this ")"
                (sliceLast (currentExpression this))).
      unfold handleParenthesesInput. simpl.
      destruct (_ && _) eqn:Hok; simpl; [|apply guarded_keep].
      apply andb_true_iff in Hok as [Hok Hlast].
      apply andb_true_iff in Hok as [Hok _].
      apply negb_true_iff in Hlast.
      apply guarded_close; [exact Hlast | now apply Nat.ltb_lt].
    + apply guarded_clear.
    + change (handleInput this "backspace") with (handleBackspace this).
      unfold handleBackspace.
      destruct (lastResult this); [destruct (String.eqb _ _)|];
        apply guarded_backspace.
    + change (handleInput this "equal") with (calculateResult this).
      unfold calculateResult.
      destruct (String.eqb _ ""); [apply guarded_keep|].
      destruct (safeEvaluate _) as [v|] eqn:Hv; simpl;
        [|apply guarded_clear].
      apply guarded_result. exact (safeEvaluate_finite _ _ Hv).
Qed.

(** ** Runs of operators *)

Section RunFacts.

Variable p : ascii -> bool.

Lemma hasRun2_cons (c : ascii) (s : string) :
  hasRun2 p (String c s) = (p c && startsWith p s) || hasRun2 p s.
Proof. destruct s; [now rewrite andb_false_r | reflexivity]. Qed.

Lemma endsWith_cons (c : ascii) (s : string) :
  endsWith p (String c s) = if String.eqb s "" then p c else endsWith p s.
Proof. now destruct s. Qed.

Lemma hasRun2_app (a b : string) :
  hasRun2 p (a ++ b)
  = hasRun2 p a || hasRun2 p b || (endsWith p a && startsWith p b).
Proof.
  induction a as [|x a IH]; [simpl; now rewrite orb_false_r|].
  change (String x a ++ b) with (String x (a ++ b)).
  rewrite !hasRun2_cons, IH, endsWith_cons.
  destruct a as [|y a].
  - simpl. destruct (p x), (startsWith p b), (hasRun2 p b); reflexivity.
  - change (String.eqb (String y a) "") with false. cbv iota.
    change (startsWith p (String y a ++ b)) with (p y).
    change (startsWith p (String y a)) with (p y).
    rewrite !orb_assoc. reflexivity.
Qed.

Lemma hasRun2_snoc (s : string) (c : ascii) :
  hasRun2 p (s ++ String c "") = hasRun2 p s || (endsWith p s && p c).
Proof. rewrite hasRun2_app. simpl. now rewrite orb_false_r. Qed.

Lemma hasRun2_sliceInit (s : string) :
  hasRun2 p s = false -> hasRun2 p (sliceInit s) = false.
Proof.
  intros H. rewrite (slice_split s), hasRun2_app in H.
  apply orb_false_iff in H as [H _].
  now apply orb_false_iff in H as [H _].
Qed.

(** When a text without a run ends in a character of [p], the character
    before it is not one of [p]. *)
Lemma endsWith_sliceInit (s : string) :
  hasRun2 p s = false -> endsWith p s = true ->
  endsWith p (sliceInit s) = false.
Proof.
  intros Hrun Hend.
  destruct (sliceLast_cases s) as [[-> _]|[c Hc]]; [reflexivity|].
  pose proof (slice_split s) as Hs. rewrite Hc in Hs.
  rewrite Hs, endsWith_snoc in Hend.
  rewrite Hs, hasRun2_snoc, Hend, andb_true_r in Hrun.
  now apply orb_false_iff in Hrun as [_ Hrun].
Qed.

Lemma free_app (a b : string) : free p a -> free p b -> free p (a ++ b).
Proof. unfold free. intros Ha Hb. now rewrite forallb_app, Ha, Hb. Qed.

Lemma free_substring (s : string) (n m : nat) :
  free p s -> free p (substring n m s).
Proof. apply forallb_substring. Qed.

Lemma free_hasRun2 (s : string) : free p s -> hasRun2 p s = false.
Proof.
  unfold free. induction s as [|x s IH]; [reflexivity|].
  simpl JsString.forallb. intros H.
  apply andb_true_iff in H as [Hx Hs]. apply negb_true_iff in Hx.
  now rewrite hasRun2_cons, Hx, IH.
Qed.

Lemma free_startsWith (s : string) : free p s -> startsWith p s = false.
Proof.
  unfold free. destruct s as [|x s]; [reflexivity|]. simpl. intros H.
  apply andb_true_iff in H as [Hx _]. now apply negb_true_iff in Hx.
Qed.

Lemma free_endsWith (s : string) : free p s -> endsWith p s = false.
Proof.
  unfold free. induction s as [|x s IH]; [reflexivity|].
  simpl JsString.forallb. intros H.
  apply andb_true_iff in H as [Hx Hs]. apply negb_true_iff in Hx.
  rewrite endsWith_cons. destruct (String.eqb s ""); auto.
Qed.

Lemma hasRun2_free_r (a b : string) :
  free p b -> hasRun2 p (a ++ b) = hasRun2 p a.
Proof.
  intros Hb.
  rewrite hasRun2_app, (free_hasRun2 _ Hb), (free_startsWith _ Hb).
  now rewrite andb_false_r, !orb_false_r.
Qed.

Lemma startsWith_free_app (a b : string) :
  free p a -> a <> "" -> startsWith p (a ++ b) = false.
Proof.
  intros Ha Hne. destruct a as [|x a]; [contradiction|].
  exact (free_startsWith _ Ha).
Qed.

(** A text [a] without characters of [p], then [e], a sign and a text
    [d] without characters of [p]. *)
Lemma exponent_form (a d : string) (sign : ascii) :
  free p a -> free p d -> p "e" = false ->
  hasRun2 p (a ++ String "e" (String sign d)) = false
  /\ startsWith p (a ++ String "e" (String sign d)) = false.
Proof.
  intros Ha Hd He.
  assert (Hae : free p (a ++ "e")).
  { apply free_app; [exact Ha|]. unfold free. simpl. now rewrite He. }
  replace (a ++ String "e" (String sign d))
    with ((a ++ "e") ++ String sign d) by (now rewrite append_assoc).
  split.
  - rewrite hasRun2_app, (free_hasRun2 _ Hae), (free_endsWith _ Hae).
    rewrite hasRun2_cons, (free_startsWith _ Hd), (free_hasRun2 _ Hd).
    now rewrite andb_false_r.
  - apply startsWith_free_app; [exact Hae|]. now destruct a.
Qed.

End RunFacts.

Lemma hasRun2_weaken (p q : ascii -> bool) (s : string) :
  (forall c, q c = true -> p c = true) ->
  hasRun2 p s = false -> hasRun2 q s = false.
Proof.
  intros Hqp. induction s as [|x s IH]; [reflexivity|].
  rewrite !hasRun2_cons. intros H.
  apply orb_false_iff in H as [Hx Hs]. rewrite (IH Hs), orb_false_r.
  destruct (q x) eqn:Hqx; [|reflexivity].
  rewrite (Hqp _ Hqx) in Hx. simpl in Hx |- *.
  destruct s as [|y s]; [reflexivity|]. simpl in Hx |- *.
  destruct (q y) eqn:Hqy; [|reflexivity].
  now rewrite (Hqp _ Hqy) in Hx.
Qed.

Lemma isOperator_sliceLast (e : string) :
  isOperator (sliceLast e) = endsWith isOperatorChar e.
Proof.
  induction e as [|c e IH]; [reflexivity|].
  destruct e as [|d e]; [reflexivity | exact IH].
Qed.

Lemma digit_not_operator (c : ascii) :
  isDigit c = true -> negb (isOperatorChar c) = true.
Proof.
  destruct c as [[|] [|] [|] [|] [|] [|] [|] [|]];
    intros H; solve [reflexivity | discriminate H].
Qed.

Lemma digits_free (s : string) :
  JsString.forallb isDigit s = true -> free isOperatorChar s.
Proof. apply forallb_weaken, digit_not_operator. Qed.

Lemma layout_runs (ds : string) (n : Z) :
  JsString.forallb isDigit ds = true ->
  hasRun2 isOperatorChar (layout ds n) = false
  /\ startsWith isOperatorChar (layout ds n) = false.
Proof.
  intros Hds. apply digits_free in Hds.
  assert (Hz : forall k, free isOperatorChar (zeros k))
    by (intros k; apply digits_free, zeros_digits).
  assert (Hd : forall z, free isOperatorChar (decimal z))
    by (intros z; apply digits_free, decimal_digits).
  assert (Hfree : forall s, free isOperatorChar s ->
            hasRun2 isOperatorChar s = false
            /\ startsWith isOperatorChar s = false)
    by (intros s Hs; split; [now apply free_hasRun2
                            | now apply free_startsWith]).
  unfold layout.
  repeat match goal with
         | |- context [if ?b then _ else _] => destruct b
         end.
  - apply Hfree, free_app; auto.
  - apply Hfree, free_app; [now apply free_substring|].
    apply (free_app _ "."); [reflexivity | now apply free_substring].
  - apply Hfree. apply (free_app _ "0."); [reflexivity|].
    apply free_app; auto.
  - now apply exponent_form.
  - now apply exponent_form.
  - replace (substring 0 1 ds ++ "." ++ substring 1 _ ds ++ "e" ++ _)
      with ((substring 0 1 ds ++ "." ++ substring 1 (Z.to_nat (Z.of_nat (String.length ds) - 1)) ds)
            ++ String "e" (String "-" (decimal (Z.abs (n - 1)))))
      by (now rewrite append_assoc).
    apply exponent_form; auto.
    apply free_app; [now apply free_substring|].
    apply (free_app _ "."); [reflexivity | now apply free_substring].
  - replace (substring 0 1 ds ++ "." ++ substring 1 _ ds ++ "e" ++ _)
      with ((substring 0 1 ds ++ "." ++ substring 1 (Z.to_nat (Z.of_nat (String.length ds) - 1)) ds)
            ++ String "e" (String "+" (decimal (Z.abs (n - 1)))))
      by (now rewrite append_assoc).
    apply exponent_form; auto.
    apply free_app; [now apply free_substring|].
    apply (free_app _ "."); [reflexivity | now apply free_substring].
Qed.

Lemma toString_runs (v : number) :
  isFinite v = true -> hasRun2 isOperatorChar (toString v) = false.
Proof.
  destruct v as [s|s| |s m e]; simpl; try discriminate; [reflexivity|].
  intros _.
  assert (H : hasRun2 isOperatorChar (toStringPos m e) = false
              /\ startsWith isOperatorChar (toStringPos m e) = false).
  { unfold toStringPos.
    destruct (if 0 <=? e then _ else _) as [a b].
    destruct (shortest _ _ _ _ _ _) as [d n].
    apply layout_runs, decimal_digits. }
  destruct H as [Hrun Hstart].
  destruct s; [|exact Hrun].
  change ("-" ++ toStringPos m e) with (String "-" (toStringPos m e)).
  now rewrite hasRun2_cons, Hrun, Hstart, andb_false_r.
Qed.

Lemma guardedEdit_runs (e e' : string) :
  guardedEdit e e' ->
  hasRun2 isOperatorChar e = false -> hasRun2 isOperatorChar e' = false.
Proof.
  intros Hedit He.
  destruct Hedit as [| | |v Hv|d Hd|d Hd|t Ht Hlast|t Ht Hlast|t Ht Hpoint
                    | |Hlast|Hlast Hlt].
  - exact He.
  - reflexivity.
  - now apply hasRun2_sliceInit.
  - now apply toString_runs.
  - each_member Hd; reflexivity.
  - rewrite hasRun2_free_r; [exact He|]. each_member Hd; reflexivity.
  - rewrite isOperator_sliceLast in Hlast.
    rewrite hasRun2_app, He, Hlast. each_member Ht; reflexivity.
  - rewrite isOperator_sliceLast in Hlast.
    rewrite hasRun2_app, (hasRun2_sliceInit _ _ He),
      (endsWith_sliceInit _ _ He Hlast).
    each_member Ht; reflexivity.
  - rewrite hasRun2_free_r; [exact He|]. each_member Ht; reflexivity.
  - rewrite hasRun2_free_r; [exact He | reflexivity].
  - rewrite isOperator_sliceLast in Hlast.
    now rewrite hasRun2_app, He, Hlast.
  - rewrite hasRun2_free_r; [exact He | reflexivity].
Qed.

(** X7: after any sequence of input tokens from the initial state the
    expression has no two operators in a row, so neither of the operator
    checks of [isValidExpression], [/[+*/]{2,}/] and [/-{2,}/], finds a
    match in it. *)
Theorem built_expression_has_no_operator_run (inputs : list string) :
  Forall (fun input => isToken input = true) inputs ->
  hasRun2 isOperatorChar (currentExpression (handleInputs initial inputs))
  = false
  /\ hasRun2 (oneOf "+*/") (currentExpression (handleInputs initial inputs))
     = false
  /\ hasRun2 (oneOf "-") (currentExpression (handleInputs initial inputs))
     = false.
Proof.
  intros Hok.
  assert (H : hasRun2 isOperatorChar
                (currentExpression (handleInputs initial inputs)) = false).
  { apply (handleInputs_invariant
             (fun this =>
                hasRun2 isOperatorChar (currentExpression this) = false)
             (fun input => isToken input = true));
      [|exact Hok|reflexivity].
    intros this input Htoken. apply guardedEdit_runs.
    now apply handleInput_guardedEdit. }
  split; [exact H|].
  split; (eapply hasRun2_weaken; [|exact H]);
    intros [[|] [|] [|] [|] [|] [|] [|] [|]] Hc;
    solve [reflexivity | discriminate Hc].
Qed.

Lemma built_expression_has_no_operator_run_witness :
  hasRun2 isOperatorChar
    (currentExpression (handleInputs initial ["5"; "*"; "/"; "-"; "3"]))
  = false.
Proof.
  apply (built_expression_has_no_operator_run ["5"; "*"; "/"; "-"; "3"]).
  repeat constructor.
Defined.

(** ** Decimal points *)

Lemma split_nonempty (p : ascii -> bool) (s : string) : split p s <> [].
Proof.
  destruct s as [|c s]; simpl; [discriminate|].
  destruct (p c); [discriminate|]. now destruct (split p s).
Qed.

Lemma trackPoint_split (s : string) :
  forall seen : bool,
    trackPoint s seen
    = match split (oneOf "+-*/()") s with
      | [part] => seen || includes "." part
      | parts => includes "." (last parts "")
      end.
Proof.
  induction s as [|c s IH]; intros seen; [simpl; now rewrite orb_false_r|].
  cbn [trackPoint split].
  pose proof (split_nonempty (oneOf "+-*/()") s) as Hne.
  destruct (oneOf "+-*/()" c).
  - rewrite IH.
    destruct (split (oneOf "+-*/()") s) as [|part [|part' parts]];
      [contradiction|reflexivity|reflexivity].
  - rewrite IH.
    destruct (split (oneOf "+-*/()") s) as [|part [|part' parts]];
      [contradiction| |reflexivity].
    cbn [includes].
    now destruct (Ascii.eqb c "."), seen, (includes "." part).
Qed.

Lemma lastPartHasPoint_track (e : string) :
  lastPartHasPoint e = trackPoint e false.
Proof.
  unfold lastPartHasPoint. rewrite trackPoint_split.
  now destruct (split (oneOf "+-*/()") e) as [|part [|part' parts]].
Qed.

Lemma trackPoint_app (a b : string) (seen : bool) :
  trackPoint (a ++ b) seen = trackPoint b (trackPoint a seen).
Proof.
  revert seen. induction a as [|c a IH]; intros seen; [reflexivity|].
  cbn [append trackPoint]. now destruct (oneOf "+-*/()" c); rewrite IH.
Qed.

Lemma decimalScan_app (a b : string) (seen : bool) :
  decimalScan (a ++ b) seen
  = match decimalScan a seen with
    | Some seen' => decimalScan b seen'
    | None => None
    end.
Proof.
  revert seen. induction a as [|c a IH]; intros seen; [reflexivity|].
  cbn [append decimalScan]. destruct (oneOf "+-*/()" c); [apply IH|].
  destruct (Ascii.eqb c "."); [|apply IH].
  destruct seen; [reflexivity | apply IH].
Qed.

Lemma decimalScan_track (s : string) (seen seen' : bool) :
  decimalScan s seen = Some seen' -> trackPoint s seen = seen'.
Proof.
  revert seen.
  induction s as [|c s IH]; intros seen; cbn [decimalScan trackPoint].
  - now intros [= <-].
  - destruct (oneOf "+-*/()" c); [apply IH|].
    destruct (Ascii.eqb c "."); cbn [orb]; [|apply IH].
    destruct seen; [discriminate | apply IH].
Qed.

Lemma decimalScan_sliceInit (s : string) (seen seen' : bool) :
  decimalScan s seen = Some seen' ->
  exists b, decimalScan (sliceInit s) seen = Some b.
Proof.
  intros H. pose proof (slice_split s) as Hs.
  rewrite Hs, decimalScan_app in H.
  destruct (decimalScan (sliceInit s) seen) as [b|];
    [now exists b | discriminate].
Qed.

(** A text with at most one decimal point in all has at most one in
    each number. *)
Lemma decimalScan_few (s : string) :
  forall seen : bool,
    (countChar "." s + (if seen then 1 else 0) <= 1)%nat ->
    exists b, decimalScan s seen = Some b.
Proof.
  induction s as [|c s IH]; intros seen; cbn [decimalScan countChar];
    [now exists seen|].
  destruct (Ascii.eqb c ".") eqn:Hc.
  - apply Ascii.eqb_eq in Hc. subst c.
    change (oneOf "+-*/()" ".") with false. cbv iota.
    destruct seen; [lia|]. intros H. apply IH. simpl. lia.
  - intros H.
    destruct (oneOf "+-*/()" c); apply IH; destruct seen; simpl in *; lia.
Qed.

Lemma digits_no_point (s : string) :
  JsString.forallb isDigit s = true -> countChar "." s = O.
Proof.
  induction s as [|c s IH]; [reflexivity|]. simpl. intros H.
  apply andb_true_iff in H as [Hc Hs]. rewrite (IH Hs).
  destruct (Ascii.eqb c ".") eqn:He; [|reflexivity].
  apply Ascii.eqb_eq in He. subst c. discriminate Hc.
Qed.

Lemma layout_points (ds : string) (n : Z) :
  JsString.forallb isDigit ds = true ->
  (countChar "." (layout ds n) <= 1)%nat.
Proof.
  intros Hds.
  assert (Hsub : forall a b, countChar "." (substring a b ds) = O)
    by (intros a b; now apply digits_no_point, forallb_substring).
  assert (Hz : forall k, countChar "." (zeros k) = O)
    by (intros k; apply digits_no_point, zeros_digits).
  assert (Hd : forall z, countChar "." (decimal z) = O)
    by (intros z; apply digits_no_point, decimal_digits).
  apply digits_no_point in Hds.
  unfold layout.
  repeat match goal with
         | |- context [if ?b then _ else _] => destruct b
         end;
    repeat rewrite countChar_app;
    rewrite ?Hsub, ?Hz, ?Hd, ?Hds; simpl; rewrite ?Hd; lia.
Qed.

Lemma toString_points (v : number) :
  isFinite v = true -> exists b, decimalScan (toString v) false = Some b.
Proof.
  destruct v as [s|s| |s m e]; simpl; try discriminate; [now exists false|].
  intros _.
  assert (H : (countChar "." (toStringPos m e) <= 1)%nat).
  { unfold toStringPos.
    destruct (if 0 <=? e then _ else _) as [a b].
    destruct (shortest _ _ _ _ _ _) as [d n].
    apply layout_points, decimal_digits. }
  destruct s; simpl; apply decimalScan_few; simpl; lia.
Qed.

Lemma oneOf_point (c : ascii) : oneOf "." c = Ascii.eqb c ".".
Proof. unfold oneOf. simpl. now rewrite orb_false_r, Ascii.eqb_sym. Qed.

Lemma decimalScan_seen (s : string) (b : bool) :
  decimalScan s true = Some b ->
  digitsThenDot s = false /\ startsWith (oneOf ".") s = false.
Proof.
  induction s as [|c s IH]; [now split|].
  cbn [decimalScan digitsThenDot startsWith]. rewrite oneOf_point.
  destruct (Ascii.eqb c ".") eqn:Hc.
  - apply Ascii.eqb_eq in Hc. subst c. discriminate.
  - idtac.
    destruct (isDigit c) eqn:Hd.
    + assert (Hsep : oneOf "+-*/()" c = false).
      { destruct c as [[|] [|] [|] [|] [|] [|] [|] [|]];
          solve [reflexivity | discriminate Hd]. }
      rewrite Hsep. intros H. split; [now apply IH | reflexivity].
    + now split.
Qed.

Lemma decimalScan_checks (s : string) :
  forall seen b : bool,
    decimalScan s seen = Some b ->
    hasRun2 (oneOf ".") s = false /\ twoDecimalPoints s = false.
Proof.
  induction s as [|c s IH]; intros seen b; [now split|].
  rewrite hasRun2_cons. cbn [decimalScan twoDecimalPoints].
  rewrite oneOf_point.
  destruct (Ascii.eqb c ".") eqn:Hc.
  - apply Ascii.eqb_eq in Hc. subst c. simpl.
    destruct seen; [discriminate|]. intros H.
    destruct (decimalScan_seen _ _ H) as [_ Hstart].
    destruct (IH _ _ H) as [Hrun Htwo].
    now rewrite Hstart, Hrun, Htwo.
  - cbn [andb orb].
    assert (Hpart :
              forall seen', decimalScan s seen' = Some b ->
                (isDigit c = true -> seen' = seen) ->
                (isDigit c
                 && match s with
                    | "" => false
                    | String d r' => Ascii.eqb d "." && digitsThenDot r'
                    end) = false).
    { intros seen' H Hsame.
      destruct (isDigit c); [|reflexivity].
      destruct s as [|d r']; [reflexivity|]. simpl in H |- *.
      destruct (Ascii.eqb d ".") eqn:Hd; [|reflexivity].
      apply Ascii.eqb_eq in Hd. subst d. simpl in H.
      destruct seen'; [discriminate|].
      now destruct (decimalScan_seen _ _ H) as [-> _]. }
    destruct (oneOf "+-*/()" c) eqn:Hsep; intros H;
      destruct (IH _ _ H) as [Hrun Htwo];
      rewrite Hrun, Htwo, orb_false_r; (split; [reflexivity|]);
      apply (Hpart _ H); intros Hd.
    + destruct c as [[|] [|] [|] [|] [|] [|] [|] [|]];
        solve [discriminate Hd | discriminate Hsep].
    + reflexivity.
Qed.

Lemma guardedEdit_points (e e' : string) :
  guardedEdit e e' ->
  (exists b, decimalScan e false = Some b) ->
  exists b', decimalScan e' false = Some b'.
Proof.
  intros Hedit [b Hb].
  destruct Hedit as [| | |v Hv|d Hd|d Hd|t Ht Hlast|t Ht Hlast|t Ht Hpoint
                    | |Hlast|Hlast Hlt].
  - now exists b.
  - now exists false.
  - now apply decimalScan_sliceInit with b.
  - now apply toString_points.
  - each_member Hd; now exists false.
  - rewrite decimalScan_app, Hb. each_member Hd; now exists b.
  - rewrite decimalScan_app, Hb. each_member Ht; now exists false.
  - destruct (decimalScan_sliceInit _ _ _ Hb) as [x Hx].
    rewrite decimalScan_app, Hx. each_member Ht; now exists false.
  - rewrite lastPartHasPoint_track, (decimalScan_track _ _ _ Hb) in Hpoint.
    subst b. rewrite decimalScan_app, Hb.
    each_member Ht; now exists true.
  - rewrite decimalScan_app, Hb. now exists false.
  - rewrite decimalScan_app, Hb. now exists false.
  - rewrite decimalScan_app, Hb. now exists false.
Qed.

(** X8: after any sequence of input tokens from the initial state no
    number of the expression holds two decimal points, so neither of the
    decimal checks of [isValidExpression], [/\.{2,}/] and
    [/\d+\.\d*\./], finds a match in it. *)
Theorem built_expression_has_no_double_point (inputs : list string) :
  Forall (fun input => isToken input = true) inputs ->
  hasRun2 (oneOf ".") (currentExpression (handleInputs initial inputs))
  = false
  /\ twoDecimalPoints (currentExpression (handleInputs initial inputs))
     = false.
Proof.
  intros Hok.
  assert (H : exists b,
             decimalScan (currentExpression (handleInputs initial inputs))
               false = Some b).
  { apply (handleInputs_invariant
             (fun this =>
                exists b, decimalScan (currentExpression this) false = Some b)
             (fun input => isToken input = true));
      [|exact Hok|now exists false].
    intros this input Htoken. apply guardedEdit_points.
    now apply handleInput_guardedEdit. }
  destruct H as [b Hb]. exact (decimalScan_checks _ _ _ Hb).
Qed.

Lemma built_expression_has_no_double_point_witness :
  twoDecimalPoints
    (currentExpression
       (handleInputs initial ["1"; "."; "5"; "."; "+"; "."; "."; "2"]))
  = false.
Proof.
  apply (built_expression_has_no_double_point
           ["1"; "."; "5"; "."; "+"; "."; "."; "2"]).
  repeat constructor.
Defined.

(** X9: a decimal point typed twice counts once: the second of two [.]
    inputs in a row changes nothing. *)
Theorem decimal_input_twice (this : Calculator) :
  handleInput (handleInput this ".") "." = handleInput this ".".
Proof.
  assert (Hrej : forall that,
             lastPartHasPoint (currentExpression that) = true ->
             handleInput that "." = that).
  { intros that H.
    change (handleInput that ".")
      with (handleDecimalInput that (sliceLast (currentExpression that))).
    unfold handleDecimalInput.
    change (canAddDecimal that)
      with (negb (lastPartHasPoint (currentExpression that))).
    now rewrite H. }
  assert (Happ : forall e t, In t ["."; "0."] ->
             lastPartHasPoint (e ++ t) = true).
  { intros e t Ht. rewrite lastPartHasPoint_track, trackPoint_app.
    each_member Ht; reflexivity. }
  assert (Hcases :
            lastPartHasPoint (currentExpression (handleInput this ".")) = true
            \/ handleInput this "." = this).
  { change (handleInput this ".")
      with (handleDecimalInput this (sliceLast (currentExpression this))).
    unfold handleDecimalInput.
    change (canAddDecimal this)
      with (negb (lastPartHasPoint (currentExpression this))).
    destruct (lastPartHasPoint (currentExpression this)) eqn:Hpoint;
      cbn [negb]; [now right|].
    destruct (_ || _); [left; apply Happ; simpl; tauto|].
    destruct (_ && _); [left; apply Happ; simpl; tauto | now right]. }
  destruct Hcases as [H|H]; [now apply Hrej|].
  now rewrite !H.
Qed.

(** ** Backspace after a digit *)

(** X10: while [lastResult] is [null], backspace undoes a digit input:
    the state is again what it was before the digit. *)
Theorem backspace_undoes_digit (this : Calculator) (digit : string) :
  lastResult this = None ->
  In digit digits ->
  handleInput (handleInput this digit) "backspace" = this.
Proof.
  intros Hnull Hd.
  rewrite (handleInput_digit _ _ Hd). unfold handleNumberInput.
  rewrite Hnull.
  change (handleInput ?s "backspace") with (handleBackspace s).
  unfold handleBackspace. cbn [lastResult currentExpression].
  destruct this as [e r]. simpl in Hnull. subst r. simpl.
  f_equal. each_member Hd; apply sliceInit_snoc.
Qed.

Lemma backspace_undoes_digit_witness :
  handleInput
    (handleInput {| currentExpression := "12+"; lastResult := None |} "7")
    "backspace"
  = {| currentExpression := "12+"; lastResult := None |}.
Proof.
  apply (backspace_undoes_digit
           {| currentExpression := "12+"; lastResult := None |} "7").
  - reflexivity.
  - simpl. tauto.
Defined.

(** ** The text of a result ends in a digit *)

Lemma endsWith_app (p : ascii -> bool) (a b : string) :
  endsWith p (a ++ b)
  = if String.eqb b "" then endsWith p a else endsWith p b.
Proof.
  induction a as [|x a IH].
  - simpl. now destruct b.
  - change (String x a ++ b) with (String x (a ++ b)).
    rewrite !endsWith_cons, IH.
    destruct b as [|y b].
    + now rewrite append_empty_r.
    + simpl. now destruct a.
Qed.

Lemma digits_end (s : string) :
  JsString.forallb isDigit s = true -> String.eqb s "" = false ->
  endsWith isDigit s = true.
Proof.
  induction s as [|c s IH]; [discriminate|].
  simpl JsString.forallb. intros H _.
  apply andb_true_iff in H as [Hc Hs].
  rewrite endsWith_cons.
  destruct (String.eqb s "") eqn:He; [exact Hc | now apply IH].
Qed.

Lemma decimal_nonempty (z : Z) : String.eqb (decimal z) "" = false.
Proof.
  unfold decimal, NilZero.string_of_uint.
  now destruct (N.to_uint (Z.to_N z)).
Qed.

Lemma substring_length (s : string) :
  forall n m : nat,
    (n + m <= String.length s)%nat -> String.length (substring n m s) = m.
Proof.
  induction s as [|c s IH]; intros n m H; simpl in H.
  - destruct n, m; simpl; lia.
  - destruct n as [|n]; [destruct m as [|m]|]; simpl; [reflexivity| |].
    + f_equal. apply (IH O m). lia.
    + apply IH. lia.
Qed.

Lemma length_nonempty (s : string) :
  (0 < String.length s)%nat -> String.eqb s "" = false.
Proof. destruct s; simpl; [lia | reflexivity]. Qed.

Lemma layout_ends_digit (ds : string) (n : Z) :
  JsString.forallb isDigit ds = true -> String.eqb ds "" = false ->
  endsWith isDigit (layout ds n) = true.
Proof.
  intros Hds Hne.
  pose proof (digits_end _ Hds Hne) as Hend.
  assert (Hexp : forall (a : string) (sign : string) (z : Z),
            endsWith isDigit (a ++ "e" ++ sign ++ decimal z) = true).
  { intros a sign z.
    assert (Hd : endsWith isDigit (sign ++ decimal z) = true).
    { rewrite endsWith_app, decimal_nonempty.
      apply digits_end; [apply decimal_digits | apply decimal_nonempty]. }
    rewrite endsWith_app.
    change ("e" ++ sign ++ decimal z) with (String "e" (sign ++ decimal z)).
    change (String.eqb (String "e" (sign ++ decimal z)) "") with false.
    cbv iota. rewrite endsWith_cons.
    destruct (String.eqb (sign ++ decimal z) "") eqn:He; [|exact Hd].
    apply String.eqb_eq in He. rewrite He in Hd. discriminate Hd. }
  unfold layout.
  destruct ((Z.of_nat (String.length ds) <=? n) && (n <=? 21)) eqn:H1.
  - rewrite endsWith_app.
    destruct (String.eqb (zeros _) "") eqn:Hz; [exact Hend|].
    apply digits_end; [apply zeros_digits | exact Hz].
  - destruct ((0 <? n) && (n <=? 21)) eqn:H2.
    + apply andb_true_iff in H2 as [Hpos H21]. rewrite H21 in H1.
      rewrite andb_true_r in H1.
      apply Z.leb_gt in H1. apply Z.ltb_lt in Hpos.
      rewrite endsWith_app.
      change ("." ++ ?s) with (String "." s).
      cbn [String.eqb]. rewrite endsWith_cons.
      assert (Hsub : String.eqb
                (substring (Z.to_nat n)
                   (Z.to_nat (Z.of_nat (String.length ds) - n)) ds) ""
              = false).
      { apply length_nonempty. rewrite substring_length; lia. }
      rewrite Hsub.
      apply digits_end; [now apply forallb_substring | exact Hsub].
    + destruct ((-6 <? n) && (n <=? 0)).
      * rewrite !endsWith_app, Hne.
        destruct (String.eqb (zeros _ ++ ds) "") eqn:He; [|exact Hend].
        apply String.eqb_eq in He. destruct (zeros _); [|discriminate].
        simpl in He. subst ds. discriminate Hne.
      * destruct (Z.of_nat (String.length ds) =? 1).
        { apply Hexp. }
        { pose proof (Hexp (substring 0 1 ds ++ "." ++
                             substring 1
                               (Z.to_nat (Z.of_nat (String.length ds) - 1)) ds)
                        (if n - 1 <? 0 then "-" else "+")
                        (Z.abs (n - 1))) as H.
          rewrite append_assoc in H. exact H. }
Qed.

Lemma toString_ends_digit (v : number) :
  isFinite v = true -> endsWith isDigit (toString v) = true.
Proof.
  destruct v as [s|s| |s m e]; simpl; try discriminate; [reflexivity|].
  intros _.
  assert (H : endsWith isDigit (toStringPos m e) = true).
  { unfold toStringPos.
    destruct (if 0 <=? e then _ else _) as [a b].
    destruct (shortest _ _ _ _ _ _) as [d n].
    apply layout_ends_digit; [apply decimal_digits | apply decimal_nonempty]. }
  rewrite endsWith_app.
  destruct (String.eqb (toStringPos m e) "") eqn:He; [|exact H].
  apply String.eqb_eq in He. rewrite He in H. discriminate H.
Qed.

Lemma endsWith_sliceLast (p : ascii -> bool) (s : string) :
  endsWith p s = true ->
  exists c, sliceLast s = String c "" /\ p c = true.
Proof.
  induction s as [|c s IH]; [discriminate|].
  rewrite endsWith_cons.
  destruct s as [|d s]; [intros H; now exists c|].
  change (String.eqb (String d s) "") with false. cbv iota. exact IH.
Qed.

(** ** After a result *)

(** X11: after equal has succeeded with the value [v], a digit input
    starts a new expression with that digit, an operator input continues
    from the text of [v], [(] continues from it with a [*] put in
    between, and backspace drops the last character of that text; each
    of them sets [lastResult] to [null]. *)
Theorem input_after_result (this : Calculator) (v : number) :
  currentExpression this <> "" ->
  safeEvaluate (currentExpression this) = Value v ->
  (forall digit : string,
      In digit digits ->
      handleInput (handleInput this "equal") digit
      = {| currentExpression := digit; lastResult := None |})
  /\ (forall input : string,
         isOperator input = true ->
         handleInput (handleInput this "equal") input
         = {| currentExpression := toString v ++ normalizeOperator input;
              lastResult := None |})
  /\ handleInput (handleInput this "equal") "("
     = {| currentExpression := toString v ++ "*("; lastResult := None |}
  /\ handleInput (handleInput this "equal") "backspace"
     = {| currentExpression := sliceInit (toString v); lastResult := None |}.
Proof.
  intros Hne Heval.
  change (handleInput this "equal") with (calculateResult this).
  unfold calculateResult.
  apply String.eqb_neq in Hne. rewrite Hne, Heval.
  destruct (endsWith_sliceLast _ _
              (toString_ends_digit _ (safeEvaluate_finite _ _ Heval)))
    as [c [Hlast Hc]].
  assert (Hfacts : isOperator (String c "") = false
                   /\ String.eqb (String c "") "." = false
                   /\ String.eqb (String c "") "(" = false).
  { destruct c as [[|] [|] [|] [|] [|] [|] [|] [|]];
      solve [now repeat split | discriminate Hc]. }
  destruct Hfacts as [Hop [Hdot Hopen]].
  assert (Hnonempty : String.eqb (toString v) "" = false).
  { destruct (toString v); [discriminate Hlast | reflexivity]. }
  split; [|split; [|split]].
  - intros digit Hd. rewrite (handleInput_digit _ _ Hd).
    unfold handleNumberInput. cbn [lastResult currentExpression].
    now rewrite Hlast, Hop, Hdot.
  - intros input Hin. apply existsb_eqb_In in Hin.
    rewrite (handleInput_operator _ _ Hin).
    unfold handleOperatorInput. cbn [lastResult currentExpression].
    now rewrite Hlast, Hop, Hnonempty.
  - change (handleInput ?s "(")
      with (handleParenthesesInput s "(" (sliceLast (currentExpression s))).
    unfold handleParenthesesInput. cbn [lastResult currentExpression].
    rewrite Hlast, Hop, Hopen. simpl. now rewrite append_assoc.
  - change (handleInput ?s "backspace") with (handleBackspace s).
    unfold handleBackspace. cbn [lastResult currentExpression].
    now rewrite String.eqb_refl.
Qed.

Lemma input_after_result_witness :
  handleInput
    (handleInput {| currentExpression := "2*3"; lastResult := None |} "equal")
    "("
  = {| currentExpression := "6*("; lastResult := None |}.
Proof.
  refine (proj1 (proj2 (proj2 (input_after_result
            {| currentExpression := "2*3"; lastResult := None |}
            (ofZ 6) _ _)))).
  - discriminate.
  - vm_compute. reflexivity.
Defined.

(** ** Keys *)

(** X12: [isNumericKey] compares strings, not characters: it accepts
    exactly the strings that start with one of the digits 0 to 8,
    whatever follows, and the string "9"; on a single character it is
    the test for a digit. *)
Theorem isNumericKey_spec :
  (forall key : string,
      isNumericKey key
      = match key with
        | "" => false
        | String c rest =>
            (48 <=? nat_of_ascii c)%nat && (nat_of_ascii c <=? 56)%nat
            || String.eqb key "9"
        end)
  /\ (forall c : ascii, isNumericKey (String c "") = isDigit c).
Proof.
  split.
  - intros [|c rest]; [reflexivity|].
    unfold isNumericKey, String.leb.
    destruct c as [[|] [|] [|] [|] [|] [|] [|] [|]]; try reflexivity;
      destruct rest; reflexivity.
  - intros c.
    destruct c as [[|] [|] [|] [|] [|] [|] [|] [|]]; reflexivity.
Qed.

Lemma toLowerCase_c (key : string) :
  String.eqb (toLowerCase key) "c" = String.eqb key "c" || String.eqb key "C".
Proof.
  destruct key as [|c rest]; [reflexivity|].
  destruct rest as [|d rest].
  - destruct c as [[|] [|] [|] [|] [|] [|] [|] [|]]; reflexivity.
  - simpl.
    destruct (Ascii.eqb (lowerChar c) "c"), (Ascii.eqb c "c"),
      (Ascii.eqb c "C"); reflexivity.
Qed.

(** X13: [handleKeyboard] acts on exactly the keys of [isCalculatorKey]:
    such a key is handed to [handleInput] (Enter and [=] as equal,
    Backspace as backspace, Escape, Delete, c and C as clear, any other
    one as it is), and every other key leaves the calculator as it
    is. *)
Theorem handleKeyboard_calculator_keys (this : Calculator) (key : string) :
  (isCalculatorKey key = false -> handleKeyboard this key = this)
  /\ (isCalculatorKey key = true ->
      handleKeyboard this key = handleInput this (keyboardInput key)).
Proof.
  destruct (String.eqb key "Enter") eqn:H1;
    [apply String.eqb_eq in H1; subst key; now split|].
  destruct (String.eqb key "=") eqn:H2;
    [apply String.eqb_eq in H2; subst key; now split|].
  destruct (String.eqb key "Backspace") eqn:H3;
    [apply String.eqb_eq in H3; subst key; now split|].
  destruct (String.eqb key "Escape") eqn:H4;
    [apply String.eqb_eq in H4; subst key; now split|].
  destruct (String.eqb key "Delete") eqn:H5;
    [apply String.eqb_eq in H5; subst key; now split|].
  destruct (String.eqb key "c") eqn:H6;
    [apply String.eqb_eq in H6; subst key; now split|].
  destruct (String.eqb key "C") eqn:H7;
    [apply String.eqb_eq in H7; subst key; now split|].
  unfold isCalculatorKey, handleKeyboard, keyboardInput.
  rewrite toLowerCase_c. cbn [existsb].
  rewrite H1, H2, H3, H4, H5, H6, H7. cbn [orb].
  rewrite orb_false_r.
  destruct (isNumericKey key || isOperatorKey key || isSpecialCharKey key);
    split; intros H; solve [reflexivity | discriminate H].
Qed.

Lemma handleKeyboard_calculator_keys_witness :
  handleKeyboard {| currentExpression := "5+3"; lastResult := None |} "F5"
  = {| currentExpression := "5+3"; lastResult := None |}
  /\ handleKeyboard {| currentExpression := "5+3"; lastResult := None |}
       "Enter"
     = {| currentExpression := "8"; lastResult := Some (ofZ 8) |}.
Proof.
  split.
  - apply (proj1 (handleKeyboard_calculator_keys
                    {| currentExpression := "5+3"; lastResult := None |}
                    "F5")).
    reflexivity.
  - rewrite (proj2 (handleKeyboard_calculator_keys
                      {| currentExpression := "5+3"; lastResult := None |}
                      "Enter") eq_refl).
    vm_compute. reflexivity.
Defined.

(** ** The display *)

(** X14: an expression of more than 25 characters is displayed as three
    dots followed by its last 22 characters, 25 characters in all, and is
    not formatted as a number. *)
Theorem long_expression_display (this : Calculator) :
  (25 < String.length (currentExpression this))%nat ->
  displayText this = "..." ++ sliceEnd 22 (currentExpression this)
  /\ String.length (displayText this) = 25%nat.
Proof.
  intros Hlen. unfold displayText.
  assert (Hne : String.eqb (currentExpression this) "" = false).
  { apply length_nonempty. lia. }
  rewrite Hne.
  assert (Hlong : (MAX_DISPLAY_LENGTH <? String.length (currentExpression this))%nat
                  = true) by (apply Nat.ltb_lt; exact Hlen).
  rewrite Hlong.
  change (MAX_DISPLAY_LENGTH - 3)%nat with 22%nat.
  change (isNumericResult ("..." ++ sliceEnd 22 (currentExpression this)))
    with false.
  cbv iota. split; [reflexivity|].
  change ("..." ++ ?s) with (String "." (String "." (String "." s))).
  cbn [String.length]. unfold sliceEnd.
  rewrite substring_length; lia.
Qed.

Lemma long_expression_display_witness :
  displayText {| currentExpression := "1234567890+1234567890+1234567890";
                 lastResult := None |}
  = "...+1234567890+1234567890".
Proof.
  rewrite (proj1 (long_expression_display
                    {| currentExpression := "1234567890+1234567890+1234567890";
                       lastResult := None |} ltac:(simpl; lia))).
  reflexivity.
Defined.

(** X15: an expression of at most 25 characters that holds an operator
    or a parenthesis, a leading [-] apart, is displayed as it is. *)
Theorem operator_expression_display (this : Calculator) :
  (String.length (currentExpression this) <= 25)%nat ->
  anyChar (oneOf "+-*/()") (dropLeadingMinus (currentExpression this)) = true ->
  displayText this = currentExpression this.
Proof.
  intros Hlen Hop. unfold displayText.
  destruct (String.eqb (currentExpression this) "") eqn:Hne.
  { apply String.eqb_eq in Hne. rewrite Hne in Hop. discriminate Hop. }
  assert (Hshort : (MAX_DISPLAY_LENGTH <? String.length (currentExpression this))%nat
                   = false) by (apply Nat.ltb_ge; exact Hlen).
  rewrite Hshort.
  assert (Hnum : isNumericResult (currentExpression this) = false).
  { unfold isNumericResult. rewrite Hop.
    destruct (String.eqb (currentExpression this) "0") eqn:Hzero.
    { apply String.eqb_eq in Hzero. rewrite Hzero in Hop. discriminate Hop. }
    destruct (_ || _); [reflexivity|].
    now destruct (_ || _). }
  now rewrite Hnum.
Qed.

Lemma operator_expression_display_witness :
  displayText {| currentExpression := "-5*(2+3)"; lastResult := None |}
  = "-5*(2+3)".
Proof.
  apply (operator_expression_display
           {| currentExpression := "-5*(2+3)"; lastResult := None |}).
  - simpl. lia.
  - reflexivity.
Defined.

Lemma exponentialText_chars (f : Z) (m : string) (e : Z) :
  JsString.forallb isDigit m = true ->
  JsString.forallb isNumberChar (exponentialText f m e) = true.
Proof.
  intros Hm.
  assert (Hn : JsString.forallb isNumberChar m = true)
    by (eapply forallb_weaken; [apply digit_isNumberChar | exact Hm]).
  assert (Hd : forall z, JsString.forallb isNumberChar (decimal z) = true)
    by (intros z; eapply forallb_weaken;
        [apply digit_isNumberChar | apply decimal_digits]).
  unfold exponentialText.
  repeat match goal with
         | |- context [if ?b then _ else _] => destruct b
         end;
    repeat rewrite forallb_app;
    repeat rewrite forallb_substring by exact Hn;
    rewrite ?Hn, ?Hd; reflexivity.
Qed.

Lemma numberChars_not_Error (s : string) :
  JsString.forallb isNumberChar s = true -> s <> "Error".
Proof. intros H ->. discriminate H. Qed.

Lemma toString_not_Error (x : number) : toString x <> "Error".
Proof.
  destruct x as [s|s| |s m e]; try discriminate.
  - destruct s; discriminate.
  - apply numberChars_not_Error. now apply toString_chars.
Qed.

Lemma toExponential_not_Error (f : Z) (x : number) :
  toExponential f x <> "Error".
Proof.
  destruct x as [s|s| |s m e];
    try apply (toString_not_Error (S754_infinity s));
    try apply (toString_not_Error S754_nan);
    apply numberChars_not_Error.
  - apply exponentialText_chars, zeros_digits.
  - unfold toExponential.
    destruct (ratioOf m e) as [a b].
    destruct (scaled a b _) as [c d].
    destruct (if _ =? _ then _ else _) as [n e1].
    rewrite forallb_app, exponentialText_chars by apply decimal_digits.
    now destruct s.
Qed.

Lemma formatNumber_not_Error (text : string) :
  isNumericResult text = true -> formatNumber text <> "Error".
Proof.
  unfold isNumericResult, formatNumber.
  destruct (_ || _).
  - intros H. apply String.eqb_eq in H. subst text.
    vm_compute. discriminate.
  - destruct (isNaN (parseFloat text) || negb (isFinite (parseFloat text)));
      [discriminate|].
    intros _.
    destruct (_ || _); [apply toExponential_not_Error|].
    destruct (isNotZero _); apply toString_not_Error.
Qed.

(** X16: the display never shows the text "Error": not for any state
    that a sequence of input tokens reaches from the initial state. *)
Theorem display_never_shows_Error (inputs : list string) :
  Forall (fun input => isToken input = true) inputs ->
  displayText (handleInputs initial inputs) <> "Error".
Proof.
  intros Hok.
  pose proof (handleInputs_live inputs Hok) as Hlive.
  unfold displayText.
  set (e := currentExpression (handleInputs initial inputs)) in *.
  set (shown := if String.eqb e "" then "0" else e).
  assert (Hshown : shown <> "Error").
  { unfold shown. destruct (String.eqb e ""); [discriminate|].
    intros He. rewrite He in Hlive. discriminate Hlive. }
  set (cut := if (MAX_DISPLAY_LENGTH <? String.length shown)%nat
              then "..." ++ sliceEnd (MAX_DISPLAY_LENGTH - 3) shown
              else shown).
  assert (Hcut : cut <> "Error").
  { unfold cut. destruct (_ <? _)%nat; [discriminate | exact Hshown]. }
  destruct (isNumericResult cut) eqn:Hnum; [|exact Hcut].
  now apply formatNumber_not_Error.
Qed.

Lemma display_never_shows_Error_witness :
  displayText (handleInputs initial ["5"; "/"; "0"; "equal"]) <> "Error".
Proof.
  apply (display_never_shows_Error ["5"; "/"; "0"; "equal"]).
  repeat constructor.
Defined.

(** ** The theme *)

Lemma theme_after_toggle (this : Theme) (stores : bool) :
  isDark (themeAtStart true true stores
            (calculatorTheme (toggleTheme true this)))
  = isDark (toggleTheme true this).
Proof. now destruct this as [[|] saved], stores. Qed.

Lemma theme_at_start (saved : option string) (stores stores' : bool) :
  isDark (themeAtStart true true stores'
            (calculatorTheme (themeAtStart true true stores saved)))
  = isDark (themeAtStart true true stores saved).
Proof.
  unfold themeAtStart, loadThemePreference. cbn [calculatorTheme isDark].
  destruct saved as [savedTheme|]; [|reflexivity].
  rewrite andb_true_r.
  destruct (String.eqb savedTheme "light") eqn:Hs.
  - apply String.eqb_eq in Hs. subst savedTheme.
    now destruct stores, stores'.
  - cbn [calculatorTheme isDark]. now rewrite Hs.
Qed.

(** X17: the theme survives a reload while the page and [localStorage]
    work: take a calculator whose constructor got as far as
    [loadThemePreference] and could read [localStorage], and any number
    of [toggleTheme] calls of which the last one could store the
    preference; a calculator constructed afterwards, which again gets
    as far as [loadThemePreference] and can read [localStorage], has the
    same [isDark]. *)
Theorem theme_survives_reload (saved : option string)
    (stores stores' : bool) (toggles : list bool) :
  last toggles true = true ->
  isDark (themeAtStart true true stores'
            (calculatorTheme
               (toggleThemes (themeAtStart true true stores saved) toggles)))
  = isDark (toggleThemes (themeAtStart true true stores saved) toggles).
Proof.
  intros Hlast.
  destruct toggles as [|w ws] using rev_ind; [apply theme_at_start|].
  rewrite last_last in Hlast. subst w.
  unfold toggleThemes. rewrite fold_left_app. cbn [fold_left].
  apply theme_after_toggle.
Qed.

Lemma theme_survives_reload_witness :
  isDark (themeAtStart true true true
            (calculatorTheme
               (toggleThemes (themeAtStart true true true None)
                  [false; true; true])))
  = false.
Proof.
  rewrite (theme_survives_reload None true true [false; true; true] eq_refl).
  reflexivity.
Defined.

(** When [localStorage] cannot store the preference the theme is lost:
    the toggle changes [isDark] and the next calculator starts dark. *)
Lemma theme_lost_without_storage :
  isDark (toggleTheme false {| isDark := true; calculatorTheme := None |})
  = false
  /\ isDark (themeAtStart true true true
               (calculatorTheme
                  (toggleTheme false
                     {| isDark := true; calculatorTheme := None |})))
     = true.
Proof. split; reflexivity. Qed.

(** ** What the host is given *)

Lemma sanitize_no_space (s : string) :
  JsString.forallb (fun c => negb (isSpace c)) (sanitize s) = true.
Proof.
  unfold sanitize. induction s as [|c s IH]; [reflexivity|].
  cbn [JsString.filter].
  destruct (isSpace c) eqn:Hs; cbn [negb]; [exact IH|].
  cbn [replaceAll JsString.forallb]. rewrite IH, andb_true_r.
  destruct (Ascii.eqb c times); [reflexivity|].
  destruct (Ascii.eqb c obelus); [reflexivity|].
  now rewrite Hs.
Qed.

(** X18: the text that [safeEvaluate] hands to the [Function]
    constructor holds only characters of the alphabet
    [0-9 + - * / ( ) .]: no letter, no white space, nothing else. *)
Theorem host_text_alphabet (expression : string) :
  isValidExpression (sanitize expression) = true ->
  JsString.forallb isAlphabetChar (sanitize expression) = true.
Proof.
  intros Hvalid. apply isValidExpression_chars in Hvalid.
  pose proof (sanitize_no_space expression) as Hspace.
  induction (sanitize expression) as [|c s IH]; [reflexivity|].
  simpl in Hvalid, Hspace |- *.
  apply andb_true_iff in Hvalid as [Hc Hs].
  apply andb_true_iff in Hspace as [Hn Hr].
  rewrite (IH Hs Hr), andb_true_r.
  unfold isExpressionChar in Hc. apply negb_true_iff in Hn.
  now rewrite Hn, orb_false_r in Hc.
Qed.

Lemma host_text_alphabet_witness :
  JsString.forallb isAlphabetChar (sanitize "2 * (3 + 4)") = true.
Proof. apply (host_text_alphabet "2 * (3 + 4)"). reflexivity. Defined.
